(** * The exchange-rate stage (pipe2py.modules.pipeexchangerate) and the
    site-feed stage (riko.modules.fetchsitefeed)

  A shallow embedding of the two pipeline stages and of the helpers they
  share, followed by the properties of the stage contract that hold of
  them and the inputs at which the contract and the code part ways.

  Python values are an inductive type, exceptions are a result type, the
  module globals ([logger], the memoisation caches) and the diagnostics
  are threaded through a state monad, and a dict is a [gmap]. *)

From Stdlib Require Import ZArith QArith Qcanon Floats Lia.
From stdpp Require Import base gmap strings list pretty.

Set Warnings "-inexact-float".

(** ** Python values, truthiness, equality and [str] *)

Module Py.

(** The scalars a resolved word or a configured currency code can be.
    Floats are kept apart (see [PyFloat]): their [str] is not modelled,
    and no word of a string stage is one. *)
Inductive pyval : Type :=
| VNone
| VBool (b : bool)
| VInt (z : Z)
| VStr (s : string).

#[global] Instance pyval_eq_dec : EqDecision pyval.
Proof. solve_decision. Defined.

(** [bool(v)] *)
Definition truthy (v : pyval) : bool :=
  match v with
  | VNone => false
  | VBool b => b
  | VInt z => negb (z =? 0)%Z
  | VStr s => negb (bool_decide (s = ""))
  end.

(** [a or b] *)
Definition py_or (a b : pyval) : pyval := if truthy a then a else b.

(** [bool] is a subclass of [int]: [True == 1] and [False == 0]. *)
Definition as_int (v : pyval) : option Z :=
  match v with
  | VBool b => Some (if b then 1 else 0)%Z
  | VInt z => Some z
  | _ => None
  end.

(** [a == b] *)
Definition py_eq (a b : pyval) : bool :=
  match a, b with
  | VNone, VNone => true
  | VStr s, VStr t => bool_decide (s = t)
  | _, _ =>
      match as_int a, as_int b with
      | Some x, Some y => (x =? y)%Z
      | _, _ => false
      end
  end.

(** ['%s' % v] *)
Definition py_str (v : pyval) : string :=
  match v with
  | VNone => "None"
  | VBool true => "True"
  | VBool false => "False"
  | VInt z => pretty z
  | VStr s => s
  end.

Inductive exn : Type :=
| KeyError
| TypeError
| ZeroDivisionError
| AttributeError
| ValueError
| IOError
| ConnectionError
| StopIteration
| NameError
| RuntimeError.

#[global] Instance exn_eq_dec : EqDecision exn.
Proof. solve_decision. Defined.

Inductive result (A : Type) : Type :=
| Ok (a : A)
| Raise (e : exn).
Arguments Ok {A} a.
Arguments Raise {A} e.

(** A Deferred, observed once the reactor has run it: it has fired with a
    result or with a failure. *)
Inductive deferred (A : Type) : Type :=
| Succeeded (a : A)
| Failed (e : exn).
Arguments Succeeded {A} a.
Arguments Failed {A} e.

(** ** Floats

    The arithmetic [calc_rate] uses: the literal [1], [*], true division
    and the comparisons with zero. [F64] is what the interpreter runs,
    [Exact] is the arithmetic of the rationals, in which the algebraic
    identities of the rate table are stated. A price that the payload
    gives as an integer is read at its float value: [float(rate)] and the
    true division [1 / usd_to_default] convert it before any use. *)
Class PyFloat (F : Type) := {
  f_one : F;
  f_mul : F → F → F;
  f_div : F → F → F;
  f_is_zero : F → bool;
  f_pos : F → bool;
}.

Class PyFloatLaws (F : Type) `{PyFloat F} : Prop := {
  f_one_nonzero : f_is_zero f_one = false;
  f_one_div_one : f_div f_one f_one = f_one;
  f_pos_nonzero : ∀ x : F, f_pos x = true → f_is_zero x = false;
}.

#[global] Instance F64 : PyFloat float := {|
  f_one := 1%float;
  f_mul := PrimFloat.mul;
  f_div := PrimFloat.div;
  f_is_zero := λ x, PrimFloat.eqb x 0%float;
  f_pos := λ x, PrimFloat.ltb 0%float x;
|}.

#[global] Instance Exact : PyFloat Qc := {|
  f_one := 1%Qc;
  f_mul := Qcmult;
  f_div := Qcdiv;
  f_is_zero := λ x, bool_decide (x = 0%Qc);
  f_pos := λ x, bool_decide (0 < x)%Qc;
|}.

End Py.

(** ** The exchange-rate stage *)

Module Exchangerate.
Import Py.

Inductive level : Type := DEBUG | WARNING | ERROR.

(** The I/O a fetch performs: the GET against [EXCHANGE_API] and the read
    of the bundled [data/quote.json]. *)
Inductive io_event : Type := HttpGet | ReadSnapshot.

Definition EXCHANGE_API : string :=
  "http://finance.yahoo.com/webservice/v1/symbols/allcurrencies/quote".

(** Modelled from the spec: [utils.HALF_DAY], the validity window of the
    memoised fetchers, 12 hours, in seconds. *)
Definition HALF_DAY : Z := 43200.

(** The resolved per-item configuration the dispatch hands to
    [parse_result]: [conf.default], [conf.quote] and, when the attribute
    exists, [conf.offline]. *)
Record objconf : Type := {
  conf_default : pyval;
  conf_quote : pyval;
  conf_offline : option pyval;
}.

Section Stage.
Context {F : Type} `{PyFloat F}.

(** What [json.loads] returns for the rate service's schema
    [list.resources[].resource.fields.{name,price}]. Every key may be
    absent, which is what [None] stands for at each level. *)
Record fields : Type := { fld_name : option string; fld_price : option F }.
Record resource : Type := { res_fields : option fields }.
Record record : Type := { rec_resource : option resource }.
Record listing : Type := { lst_resources : option (list record) }.
Record payload : Type := { pl_list : option listing }.

(** What the name [rdata] can be bound to: the decoded payload, or a
    Deferred that will deliver it. *)
Inductive pyobj : Type :=
| ObjJson (p : payload)
| ObjDeferred (d : deferred payload).

(** The module globals and the trace of what the module did: [logger]
    ([false] while the global is still [None]), the diagnostics logged, the
    clock and the entries of the memoisation caches, and the I/O issued. *)
Record state : Type := {
  logger : bool;
  log : list (level * string);
  now : Z;
  cache : gmap string (pyobj * Z);
  io : list io_event;
}.

Definition set_logger (b : bool) (st : state) : state :=
  {| logger := b; log := log st; now := now st; cache := cache st; io := io st |}.
Definition add_log (e : level * string) (st : state) : state :=
  {| logger := logger st; log := log st ++ [e]; now := now st; cache := cache st; io := io st |}.
Definition set_now (t : Z) (st : state) : state :=
  {| logger := logger st; log := log st; now := t; cache := cache st; io := io st |}.
Definition set_cache (c : gmap string (pyobj * Z)) (st : state) : state :=
  {| logger := logger st; log := log st; now := now st; cache := c; io := io st |}.
Definition add_io (e : io_event) (st : state) : state :=
  {| logger := logger st; log := log st; now := now st; cache := cache st; io := io st ++ [e] |}.

(** The state of a process that has just imported the module:
    [logger = None], nothing logged, nothing cached, no I/O. *)
Definition imported (t : Z) : state :=
  {| logger := false; log := []; now := t; cache := ∅; io := [] |}.

(** Computations: state passing with exceptions. *)
Definition M (A : Type) : Type := state → result A * state.

Definition ret {A} (a : A) : M A := λ st, (Ok a, st).
Definition raise {A} (e : exn) : M A := λ st, (Raise e, st).
Definition bind {A B} (m : M A) (k : A → M B) : M B := λ st,
  match m st with
  | (Ok a, st') => k a st'
  | (Raise e, st') => (Raise e, st')
  end.

Notation "'let!' x ':=' m 'in' k" := (bind m (λ x, k))
  (at level 10, x name, m at level 100, k at level 200).
Notation "'do!' m 'in' k" := (bind m (λ _, k))
  (at level 10, m at level 100, k at level 200).

(** [d[key]] on a dict whose key may be absent. *)
Definition getitem {A} (o : option A) : M A :=
  match o with
  | Some a => ret a
  | None => raise KeyError
  end.

(** [logger.debug(msg)], [logger.warning(msg)], [logger.error(msg)]: the
    attribute lookup fails on [None]. *)
Definition logger_call (lv : level) (msg : string) : M unit := λ st,
  if logger st then (Ok tt, add_log (lv, msg) st)
  else (Raise AttributeError, st).

(** [global logger; logger = utils.get_logger(context)] *)
Definition get_logger : M unit := λ st, (Ok tt, set_logger true st).

(** [x / y] under [from __future__ import division] *)
Definition py_truediv (x y : F) : M F :=
  if f_is_zero y then raise ZeroDivisionError else ret (f_div x y).

(** *** Common functions *)

Definition get_base (conf : objconf) (word : pyval) : pyval * pyval :=
  let base := py_or word (conf_default conf) in
  let offline :=
    match conf_offline conf with
    | Some o => o
    | None => VBool false
    end in
  (base, offline).

(** ['USD/%s' % cur] *)
Definition rate_key (cur : pyval) : string := "USD/" +:+ py_str cur.

(** The [if]/[elif]/[else] of [calc_rate], which binds [rate]. *)
Definition raw_rate (from_cur to_cur : pyval) (rates : gmap string F) : M F :=
  if py_eq from_cur to_cur then ret f_one
  else if py_eq to_cur (VStr "USD") then
    match rates !! rate_key from_cur with
    | Some rate => ret rate
    | None =>
        do! logger_call WARNING ("rate " +:+ rate_key from_cur +:+ " not found in rates") in
        ret f_one
    end
  else
    let! usd_to_given := getitem (rates !! rate_key from_cur) in
    let! usd_to_default := getitem (rates !! rate_key to_cur) in
    let! inv := py_truediv f_one usd_to_default in
    ret (f_mul usd_to_given inv).

Definition calc_rate (from_cur to_cur : pyval) (rates : gmap string F) : M F :=
  let! rate := raw_rate from_cur to_cur rates in
  py_truediv f_one rate.

(** The dict comprehension of [parse_request], one record at a time. *)
Fixpoint dict_comp (resources : list record) (acc : gmap string F) : M (gmap string F) :=
  match resources with
  | [] => ret acc
  | r :: rest =>
      let! res := getitem (rec_resource r) in
      let! i := getitem (res_fields res) in
      let! price := getitem (fld_price i) in
      let! name := getitem (fld_name i) in
      dict_comp rest (<[name := price]> acc)
  end.

(** [json['list']] on a Deferred raises: a Deferred has no [__getitem__]
    (a TypeError for a new-style class). *)
Definition parse_request (json : pyobj) : M (gmap string F) :=
  match json with
  | ObjDeferred _ => raise TypeError
  | ObjJson p =>
      let! l := getitem (pl_list p) in
      let! resources := getitem (lst_resources l) in
      dict_comp resources ∅
  end.

(** What the stage emits for one item: the word as it is, or a rate. *)
Inductive output : Type :=
| OutVal (v : pyval)
| OutRate (r : F).

Definition parse_result (conf : objconf) (word : pyval) (_pass : bool)
    (rates : gmap string F) : M output :=
  let base := py_or word (conf_default conf) in
  if _pass then ret (OutVal base)
  else let! r := calc_rate base (conf_quote conf) rates in ret (OutRate r).

(** *** The external data and the fetchers *)

(** What [r.json()] and [treq.json_content] make of a response. *)
Inductive response : Type :=
| Unparseable
| Body (p : payload).

(** The fixed external reference data of a run: what the GET against the
    rate service does ([Raise] when the call raises or times out) and what
    reading and decoding the bundled snapshot gives. *)
Record world : Type := {
  remote : result response;
  snapshot : result payload;
}.

Variable w : world.

(** [requests.get(EXCHANGE_API, params=PARAMS)] *)
Definition requests_get : M response := λ st, (remote w, add_io HttpGet st).

(** [loads(urlopen(LOCAL_RATES_URL).read())] *)
Definition urlopen_local : M payload := λ st, (snapshot w, add_io ReadSnapshot st).

(** Modelled from the spec: [utils.memoize], the ExternalDataCache of the
    spec's section 4.1. A live entry ([now - fetchedAt < ttl]) is returned
    with no I/O; otherwise [fetchFn] runs, and its value is stored with the
    time of the call; when it fails, a stale entry is served if there is
    one, and the failure propagates if there is none. *)
Definition store (key : string) (v : pyobj) (st : state) : state :=
  set_cache (<[key := (v, now st)]> (cache st)) st.

Definition memoize (key : string) (ttl : Z) (fetchFn : M pyobj) : M pyobj := λ st,
  match cache st !! key with
  | Some (v, fetchedAt) =>
      if (now st - fetchedAt <? ttl)%Z then (Ok v, st)
      else
        match fetchFn st with
        | (Ok v', st') => (Ok v', store key v' st')
        | (Raise _, st') => (Ok v, st')
        end
  | None =>
      match fetchFn st with
      | (Ok v', st') => (Ok v', store key v' st')
      | (Raise e, st') => (Raise e, st')
      end
  end.

(** [kwargs.get('err', True)] *)
Definition kw_err (err : option bool) : bool := default true err.

(** The cache key of a call: the function and its arguments. *)
Definition call_key (fn : string) (err : option bool) : string :=
  match err with
  | None => fn +:+ "()"
  | Some true => fn +:+ "(err=True)"
  | Some false => fn +:+ "(err=False)"
  end.

(** *** Async functions *)

Definition asyncGetOfflineRateData_body (err : option bool) : M pyobj :=
  do! logger_call DEBUG "loading offline data" in
  do! (if kw_err err
       then logger_call ERROR ("Error loading exchange rate data from " +:+ EXCHANGE_API)
       else ret tt) in
  (* deferToThread(urlopen, LOCAL_RATES_URL), then loads(r.read()) *)
  λ st,
    (Ok (ObjDeferred match snapshot w with
                     | Ok p => Succeeded p
                     | Raise e => Failed e
                     end),
     add_io ReadSnapshot st).

Definition asyncGetOfflineRateData (err : option bool) : M pyobj :=
  memoize (call_key "asyncGetOfflineRateData" err) HALF_DAY
    (asyncGetOfflineRateData_body err).

(** The errback of [asyncGetRateData]: [asyncGetOfflineRateData(failure)],
    whose only argument is positional, so that [err] takes its default. *)
Definition asyncGetOfflineRateData_errback : M pyobj :=
  memoize "asyncGetOfflineRateData(failure)" HALF_DAY
    (asyncGetOfflineRateData_body None).

(** [resp.addCallbacks(treq.json_content, asyncGetOfflineRateData)]: the
    callback runs on a response, the errback on a failed GET only; a
    failure of the callback itself is not passed to the errback. *)
Definition asyncGetRateData_body : M pyobj :=
  do! logger_call DEBUG "asyncGetRateData" in
  let! resp := (λ st, (Ok (remote w), add_io HttpGet st)) in
  match resp with
  | Ok (Body p) => ret (ObjDeferred (Succeeded p))
  | Ok Unparseable => ret (ObjDeferred (Failed ValueError))
  | Raise _ => λ st,
      match asyncGetOfflineRateData_errback st with
      | (Ok (ObjDeferred d), st') => (Ok (ObjDeferred d), st')
      | (Ok (ObjJson p), st') => (Ok (ObjDeferred (Succeeded p)), st')
      | (Raise e, st') => (Ok (ObjDeferred (Failed e)), st')
      end
  end.

Definition asyncGetRateData : M pyobj :=
  memoize "asyncGetRateData()" HALF_DAY asyncGetRateData_body.

(** *** Synchronous functions *)

Definition get_offline_rate_data_body (err : option bool) : M pyobj :=
  do! (if kw_err err
       then logger_call ERROR ("Error loading exchange rate data from " +:+ EXCHANGE_API)
       else logger_call WARNING ("Exchange rate data from " +:+ EXCHANGE_API +:+ " was empty")) in
  let! p := urlopen_local in
  ret (ObjJson p).

Definition get_offline_rate_data (err : option bool) : M pyobj :=
  memoize (call_key "get_offline_rate_data" err) HALF_DAY
    (get_offline_rate_data_body err).

Definition get_rate_data_body : M pyobj :=
  let! r := requests_get in
  match r with
  | Unparseable => raise ValueError
  | Body p => ret (ObjJson p)
  end.

Definition get_rate_data : M pyobj :=
  memoize "get_rate_data()" HALF_DAY get_rate_data_body.

(** *** The two stages

    The dispatch helpers of the package, [utils.dispatch] and
    [asyncDispatch], are collaborators: they turn a split into the
    [(conf, word, _pass)] triples. The split itself is never made: the
    stages call [get_split] and [asyncGetSplit], and the import line of
    the module binds [get_splits] and [asyncGetSplits]; no statement of
    the module binds the names called. *)
Variables Item Kwargs Split : Type.
Variable dispatch : Split → list (objconf * pyval * bool).
Variable asyncDispatch : Split → deferred (list (objconf * pyval * bool)).

(** The call of a name that neither the module nor the builtins bind: the
    lookup of the name raises before any argument is evaluated. *)
Definition unbound_name {A} (name : string) : M A := raise NameError.

(** [conf.get('offline', {}).get('value')] *)
Definition conf_get_offline (conf : gmap string (gmap string pyval)) : pyval :=
  default VNone (default ∅ (conf !! "offline") !! "value").

(** [starmap(partial(parse_result, rates=rates), parsed)], consumed to its
    end: the items in order, or the exception that stops the stream. *)
Fixpoint starmap (rates : gmap string F) (parsed : list (objconf * pyval * bool))
    : M (list output) :=
  match parsed with
  | [] => ret []
  | (conf, word, _pass) :: rest =>
      let! o := parse_result conf word _pass rates in
      let! os := starmap rates rest in
      ret (o :: os)
  end.

(** [x = yield d] in a coroutine: the result of a Deferred, a failure
    raised at the [yield], and any other object handed back as it is. *)
Definition yield_obj (o : pyobj) : M pyobj :=
  match o with
  | ObjDeferred (Succeeded p) => ret (ObjJson p)
  | ObjDeferred (Failed e) => raise e
  | ObjJson p => ret (ObjJson p)
  end.

Definition yield_ {A} (d : deferred A) : M A :=
  match d with
  | Succeeded a => ret a
  | Failed e => raise e
  end.

(** The suspendable stage, with the stream it delivers consumed: [Raise]
    is the failure of the Deferred the coroutine returns, or the exception
    that stops the stream. In the [else] branch the source binds [rdata]
    to what [asyncGetRateData()] returns, without a [yield]. The call of
    [asyncGetSplit] raises NameError inside the coroutine. *)
Definition asyncPipeExchangerate (item : Item)
    (conf : gmap string (gmap string pyval)) (kwargs : Kwargs) : M (list output) :=
  do! get_logger in
  let offline := conf_get_offline conf in
  let! rdata :=
    (if truthy offline
     then let! d := asyncGetOfflineRateData (Some false) in yield_obj d
     else asyncGetRateData) in
  let! rates := parse_request rdata in
  let! split := unbound_name "asyncGetSplit" in
  let! parsed := yield_ (asyncDispatch split) in
  starmap rates parsed.

(** The blocking stage, with its output stream consumed. The call of
    [get_split] raises NameError once the rates are fetched and parsed. *)
Definition pipe_exchangerate (item : Item)
    (conf : gmap string (gmap string pyval)) (kwargs : Kwargs) : M (list output) :=
  let offline := conf_get_offline conf in
  let! rdata :=
    (if truthy offline then get_offline_rate_data (Some false) else get_rate_data) in
  let! rates := parse_request rdata in
  let! split := unbound_name "get_split" in
  let parsed := dispatch split in
  starmap rates parsed.

End Stage.

Arguments fields : clear implicits.
Arguments resource : clear implicits.
Arguments record : clear implicits.
Arguments listing : clear implicits.
Arguments payload : clear implicits.
Arguments pyobj : clear implicits.
Arguments state : clear implicits.
Arguments M : clear implicits.
Arguments output : clear implicits.
Arguments response : clear implicits.
Arguments world : clear implicits.
Arguments asyncPipeExchangerate {F H} w {Item Kwargs Split} asyncDispatch
  item conf kwargs.
Arguments pipe_exchangerate {F H} w {Item Kwargs Split} dispatch
  item conf kwargs.

End Exchangerate.

(** ** The site-feed stage *)

Module Fetchsitefeed.
Import Py.

(** The calls a parser makes to its collaborators, in the order made. *)
Inductive call : Type :=
| GetAbspath (path : string)
| GetRss (url : string)
| AsyncGetRss (url : string)
| AsyncUrlRead (link : string)
| ParseRss (source : string)
| GenEntries.

(** [objconf.url] *)
Record objconf : Type := { url : string }.

Section Parser.
(** A stream of entries, and what [utils.parse_rss] returns. *)
Variables Stream Parsed : Type.
Variable get_abspath : string → string.
Variable get_rss : string → result (list (gmap string string)).
Variable asyncGetRSS : string → deferred (list (gmap string string)).
Variable async_url_read : string → deferred string.
Variable parse_rss : string → result Parsed.
Variable gen_entries : Parsed → Stream.

(** Whether the interpreter turns a StopIteration that escapes a generator
    into a RuntimeError (PEP 479: Python 3.7 on) or lets it end the
    generator (Python 2 and Python 3 up to 3.6). *)
Variable pep479 : bool.

(** Computations that record the collaborator calls they make. *)
Definition T (A : Type) : Type := list call → result A * list call.

Definition ret {A} (a : A) : T A := λ tr, (Ok a, tr).
Definition bind {A B} (m : T A) (k : A → T B) : T B := λ tr,
  match m tr with
  | (Ok a, tr') => k a tr'
  | (Raise e, tr') => (Raise e, tr')
  end.
Definition invoke {A} (c : call) (r : result A) : T A := λ tr, (r, tr ++ [c]).

Notation "'let!' x ':=' m 'in' k" := (bind m (λ x, k))
  (at level 10, x name, m at level 100, k at level 200).

(** [d[key]] *)
Definition getitem {A} (o : option A) : T A := λ tr,
  match o with
  | Some a => (Ok a, tr)
  | None => (Raise KeyError, tr)
  end.

(** [next(it)] *)
Definition next {A} (it : list A) : T A := λ tr,
  match it with
  | a :: _ => (Ok a, tr)
  | [] => (Raise StopIteration, tr)
  end.

(** [x = yield d] *)
Definition from_deferred {A} (d : deferred A) : result A :=
  match d with
  | Succeeded a => Ok a
  | Failed e => Raise e
  end.

(** [@coroutine], Twisted's [inlineCallbacks], read at the result of the
    Deferred it returns. [Some a] is the value handed to [return_value],
    [Raise] the Deferred's failure. A StopIteration that leaves the
    generator is not told apart from the generator's end: the Deferred
    fires with [None]; under PEP 479 the interpreter has made it a
    RuntimeError first, and the Deferred fails with that. *)
Definition coroutine {A} (gen : T A) : T (option A) := λ tr,
  match gen tr with
  | (Ok a, tr') => (Ok (Some a), tr')
  | (Raise StopIteration, tr') =>
      if pep479 then (Raise RuntimeError, tr') else (Ok None, tr')
  | (Raise e, tr') => (Raise e, tr')
  end.

(** The body of the coroutine. *)
Definition async_parser_gen (conf : objconf) (skip : bool)
    (kwargs : gmap string Stream) : T (Stream * bool) :=
  let! stream :=
    (if skip then getitem (kwargs !! "stream")
     else
       let! url := invoke (GetAbspath (url conf)) (Ok (get_abspath (url conf))) in
       let! rss := invoke (AsyncGetRss url) (from_deferred (asyncGetRSS url)) in
       let! first := next rss in
       let! l := getitem (first !! "link") in
       let! link := invoke (GetAbspath l) (Ok (get_abspath l)) in
       let! content := invoke (AsyncUrlRead link) (from_deferred (async_url_read link)) in
       let! parsed := invoke (ParseRss content) (parse_rss content) in
       invoke GenEntries (Ok (gen_entries parsed))) in
  ret (stream, skip).

Definition async_parser (_ : pyval) (conf : objconf) (skip : bool)
    (kwargs : gmap string Stream) : T (option (Stream * bool)) :=
  coroutine (async_parser_gen conf skip kwargs).

Definition parser (_ : pyval) (conf : objconf) (skip : bool)
    (kwargs : gmap string Stream) : T (Stream * bool) :=
  let! stream :=
    (if skip then getitem (kwargs !! "stream")
     else
       let! url := invoke (GetAbspath (url conf)) (Ok (get_abspath (url conf))) in
       let! rss := invoke (GetRss url) (get_rss url) in
       let! first := next rss in
       let! l := getitem (first !! "link") in
       let! link := invoke (GetAbspath l) (Ok (get_abspath l)) in
       let! parsed := invoke (ParseRss link) (parse_rss link) in
       invoke GenEntries (Ok (gen_entries parsed))) in
  ret (stream, skip).

End Parser.

Arguments coroutine pep479 {A} gen.
Arguments async_parser_gen {Stream Parsed} get_abspath asyncGetRSS async_url_read
  parse_rss gen_entries conf skip kwargs.
Arguments async_parser {Stream Parsed} get_abspath asyncGetRSS async_url_read
  parse_rss gen_entries pep479 _ conf skip kwargs.
Arguments parser {Stream Parsed} get_abspath get_rss parse_rss gen_entries
  _ conf skip kwargs.

End Fetchsitefeed.

(** ** The currency-format stage (pipe2py.modules.pipecurrencyformat) *)

Module Currencyformat.
Import Py.

(** [conf.currency] *)
Record objconf : Type := { conf_currency : pyval }.

Section Stage.
(** The numbers the stage formats, and
    [babel.numbers.format_currency(num, currency)], which raises on a
    currency or a number it cannot format. *)
Variable Num : Type.
Variable format_currency : Num → pyval → result string.

(** What the stage emits for one item: the number as it is, or the
    formatted string. *)
Inductive output : Type :=
| OutNum (num : Num)
| OutStr (s : string).

(** Computations that record the calls made to [format_currency]. *)
Definition T (A : Type) : Type :=
  list (Num * pyval) → result A * list (Num * pyval).

Definition ret {A} (a : A) : T A := λ calls, (Ok a, calls).
Definition raise {A} (e : exn) : T A := λ calls, (Raise e, calls).
Definition bind {A B} (m : T A) (k : A → T B) : T B := λ calls,
  match m calls with
  | (Ok a, calls') => k a calls'
  | (Raise e, calls') => (Raise e, calls')
  end.

Definition parse_result (conf : objconf) (num : Num) (_pass : bool) : T output :=
  if _pass then ret (OutNum num)
  else λ calls,
    (match format_currency num (conf_currency conf) with
     | Ok s => Ok (OutStr s)
     | Raise e => Raise e
     end,
     calls ++ [(num, conf_currency conf)]).

Variables Item Kwargs Split : Type.
Variable dispatch : Split → list (objconf * Num * bool).

(** [starmap(parse_result, parsed)], consumed to its end. *)
Fixpoint starmap (parsed : list (objconf * Num * bool)) : T (list output) :=
  match parsed with
  | [] => ret []
  | (conf, num, _pass) :: rest =>
      bind (parse_result conf num _pass) (λ o,
      bind (starmap rest) (λ os, ret (o :: os)))
  end.

(** The blocking stage, with its output stream consumed. It calls
    [get_split], a name the module does not bind (its import line has
    [get_splits]): the call raises NameError before anything else. *)
Definition pipe_currencyformat (item : Item)
    (conf : gmap string (gmap string pyval)) (kwargs : Kwargs) : T (list output) :=
  bind (raise NameError) (λ split : Split,
  let parsed := dispatch split in
  starmap parsed).

End Stage.

Arguments OutNum {Num} num.
Arguments OutStr {Num} s.
Arguments parse_result {Num} format_currency conf num _pass.
Arguments starmap {Num} format_currency parsed.
Arguments pipe_currencyformat {Num} format_currency {Item Kwargs Split}
  dispatch item conf kwargs.

End Currencyformat.

(** ** Vocabulary of the statements *)

Import Py Exchangerate.

(** Every price of the table is strictly positive. *)
Definition all_positive {F : Type} `{PyFloat F} (rates : gmap string F) : Prop :=
  map_Forall (λ _ price, f_pos price = true) rates.

(** The [else] branch of [calc_rate]: the cross rate through the pivot. *)
Definition cross_branch (from_cur to_cur : pyval) : Prop :=
  py_eq from_cur to_cur = false ∧ py_eq to_cur (VStr "USD") = false.

(** The table of the spec's end-to-end example, and the module's [FIELDS]. *)
Definition example_table : gmap string float :=
  <["USD/GBP" := 0.6448%float]>
    (<["USD/EUR" := 0.8234%float]> (<["USD/USD" := 1%float]> ∅)).

Definition FIELDS : list (fields float) := [
  {| fld_name := Some "USD/USD"; fld_price := Some 1%float |};
  {| fld_name := Some "USD/EUR"; fld_price := Some 0.8234%float |};
  {| fld_name := Some "USD/GBP"; fld_price := Some 0.6448%float |};
  {| fld_name := Some "USD/INR"; fld_price := Some 63.6810%float |};
  {| fld_name := Some "USD/PLN"; fld_price := Some 3.76%float |};
  {| fld_name := Some "USD/SGD"; fld_price := Some 1.34%float |}
].

(** The laws of exact division that inverse consistency rests on when
    neither currency is the pivot: taking the reciprocal twice gives the
    number back, and the reciprocal of [x * (1 / y)] is [y * (1 / x)]. *)
Definition reciprocal_laws (F : Type) `{PyFloat F} : Prop :=
  (∀ x : F, f_is_zero x = false → f_div f_one (f_div f_one x) = x)
  ∧ (∀ x y : F, f_is_zero x = false → f_is_zero y = false →
       f_div f_one (f_mul x (f_div f_one y)) = f_mul y (f_div f_one x)).

(** A table whose self-pair is not 1, and one with extreme prices. *)
Definition skewed_table : gmap string float :=
  <["USD/EUR" := 4%float]> (<["USD/USD" := 2%float]> ∅).

Definition extreme_table : gmap string float :=
  <["USD/BBB" := 1e200%float]> (<["USD/AAA" := 1e-200%float]> ∅).

Definition exact_table : gmap string Qc :=
  <["USD/GBP" := Q2Qc (6448 # 10000)]>
    (<["USD/EUR" := Q2Qc (8234 # 10000)]> (<["USD/USD" := 1%Qc]> ∅)).

Definition example_conf : objconf :=
  {| conf_default := VStr "EUR"; conf_quote := VStr "USD"; conf_offline := None |}.

(** The payloads of the parsing contract. *)
Definition payload_resources {F : Type} (resources : list (record F)) : payload F :=
  {| pl_list := Some {| lst_resources := Some resources |} |}.

Definition payload_of {F : Type} (resources : list (record F)) : pyobj F :=
  ObjJson (payload_resources resources).

Definition quote {F : Type} (name : string) (price : F) : record F :=
  {| rec_resource := Some {| res_fields := Some
       {| fld_name := Some name; fld_price := Some price |} |} |}.

(** A record that has the whole resource/fields/name/price structure, as
    the entry it stands for. *)
Definition record_entry {F : Type} (r : record F) : option (string * F) :=
  match rec_resource r with
  | Some {| res_fields :=
              Some {| fld_name := Some name; fld_price := Some price |} |} =>
      Some (name, price)
  | _ => None
  end.

Definition well_formed {F : Type} (r : record F) : bool :=
  bool_decide (is_Some (record_entry r)).

(** The price of the last record named [k], scanning in order from what
    is known so far. *)
Definition last_price {F : Type} (k : string) (resources : list (record F))
    (known : option F) : option F :=
  fold_left
    (λ found r,
       match record_entry r with
       | Some (name, price) => if bool_decide (name = k) then Some price else found
       | None => found
       end)
    resources known.

(** A record without its price. *)
Definition priceless : record float :=
  {| rec_resource := Some {| res_fields := Some
       {| fld_name := Some "USD/GBP"; fld_price := None |} |} |}.

(** The two execution strategies, and the rate-data fetch of each with
    its underlying fetch and its cache key. *)
Inductive strategy : Type := Blocking | Suspendable.

Definition rate_data_fetch {F : Type} (s : strategy) (w : world F) : M F (pyobj F) :=
  match s with
  | Blocking => get_rate_data w
  | Suspendable => asyncGetRateData w
  end.

Definition rate_data_body {F : Type} (s : strategy) (w : world F) : M F (pyobj F) :=
  match s with
  | Blocking => get_rate_data_body w
  | Suspendable => asyncGetRateData_body w
  end.

Definition rate_data_key (s : strategy) : string :=
  match s with
  | Blocking => "get_rate_data()"
  | Suspendable => "asyncGetRateData()"
  end.

(** No entry of the cache is live for [key]: none at all, or one whose
    validity window has run out. *)
Definition no_live_entry {F : Type} (key : string) (st : state F) : Prop :=
  match cache st !! key with
  | Some (_, fetchedAt) => (HALF_DAY ≤ now st - fetchedAt)%Z
  | None => True
  end.

(** The module's [FIELDS] as the service and the snapshot deliver them. *)
Definition FIELDS_payload : payload float :=
  payload_resources
    (map (λ i, {| rec_resource := Some {| res_fields := Some i |} |}) FIELDS).

(** A run in which the rate service answers, and one in which the GET
    raises; the bundled snapshot is readable in both. *)
Definition live_world : world float :=
  {| remote := Ok (Body FIELDS_payload); snapshot := Ok FIELDS_payload |}.

Definition down_world : world float :=
  {| remote := Raise ConnectionError; snapshot := Ok FIELDS_payload |}.

(** A run in which the service answers with something that is not JSON. *)
Definition garbled_world : world float :=
  {| remote := Ok Unparseable; snapshot := Ok FIELDS_payload |}.

(** Dispatch helpers for a one-item stream: the split is the list of
    triples itself, and the suspendable helper fires with what the blocking
    one returns. *)
Definition one_item_dispatch (split : list (objconf * pyval * bool))
    : list (objconf * pyval * bool) := split.

Definition one_item_asyncDispatch (split : list (objconf * pyval * bool))
    : deferred (list (objconf * pyval * bool)) :=
  Succeeded (one_item_dispatch split).

(** What a computation leaves alone: the clock and [logger]; and the I/O
    trace only grows. *)
Definition steady {F A : Type} (m : M F A) : Prop :=
  ∀ st, now (m st).2 = now st ∧ logger (m st).2 = logger st
        ∧ ∃ rest, io (m st).2 = io st ++ rest.

(** What a fetcher hands the stage when the snapshot reads as [snap]. *)
Definition fetched {F : Type} (snap : result (payload F)) : result (pyobj F) :=
  match snap with
  | Ok p => Ok (ObjJson p)
  | Raise e => Raise e
  end.

(** The state after the first blocking fetch of a fresh process. *)
Definition first_fetch_state : state float :=
  store "get_rate_data()" (ObjJson FIELDS_payload) (add_io HttpGet (imported 0)).

(** The names of the records that have the whole structure, in order. *)
Definition record_names {F : Type} (resources : list (record F)) : list string :=
  (omap record_entry resources).*1.

(** A computation whose I/O is an extension of the trace it starts from
    and never includes the event [e]. *)
Definition never_issues {F A : Type} (e : io_event) (m : M F A) : Prop :=
  ∀ st, ∃ rest, io (m st).2 = io st ++ rest ∧ e ∉ rest.

(** The state [calc_rate] leaves: the one it found, or that state with the
    one warning of the to-USD branch. *)
Definition calc_rate_warns {F : Type} (from_cur to_cur : pyval)
    (rates : gmap string F) (st : state F) : bool :=
  negb (py_eq from_cur to_cur) && py_eq to_cur (VStr "USD")
  && bool_decide (rates !! rate_key from_cur = None) && logger st.

(** What the pass-through pairs of a stream come out as. *)
Definition passed (t : objconf * pyval * bool) : bool := t.2.

(** The formatter calls of the currency-format stage: the pairs that are
    not passed through, in order. *)
Definition to_format {Num : Type}
    (parsed : list (Currencyformat.objconf * Num * bool)) : list (Num * pyval) :=
  omap (λ t : Currencyformat.objconf * Num * bool,
          if t.2 then None else Some (t.1.2, Currencyformat.conf_currency t.1.1))
       parsed.

(** A Deferred as the result it was fired with. *)
Definition as_deferred {A : Type} (r : result A) : deferred A :=
  match r with
  | Ok a => Succeeded a
  | Raise e => Failed e
  end.

(** The records of [FIELDS] and the table they parse to. *)
Definition FIELDS_records : list (record float) :=
  map (λ i, {| rec_resource := Some {| res_fields := Some i |} |}) FIELDS.

Definition FIELDS_table : gmap string float :=
  <["USD/SGD" := 1.34%float]> (<["USD/PLN" := 3.76%float]>
    (<["USD/INR" := 63.6810%float]> example_table)).

(** Collaborators of the site-feed stage for a site with two feeds. *)
Definition site_conf : Fetchsitefeed.objconf := {| Fetchsitefeed.url := "bbc.html" |}.

Definition site_abspath (path : string) : string := "/srv/" +:+ path.

Definition site_feeds : list (gmap string string) :=
  [{["link" := "feed.xml"]}; {["link" := "other.xml"]}].

Definition site_get_rss (_ : string) : result (list (gmap string string)) :=
  Ok site_feeds.

Definition site_asyncGetRSS (_ : string) : deferred (list (gmap string string)) :=
  Succeeded site_feeds.

Definition site_url_read (link : string) : deferred string :=
  Succeeded ("<rss>" +:+ link).

Definition site_parse_rss (_ : string) : result string := Ok "feed".

Definition site_gen_entries (parsed : string) : list string := [parsed].

(** A site that advertises nothing. *)
Definition bare_get_rss (_ : string) : result (list (gmap string string)) := Ok [].

Definition bare_asyncGetRSS (_ : string) : deferred (list (gmap string string)) :=
  Succeeded [].

(** A formatter for the currency-format stage that knows one currency. *)
Definition usd_only (num : Z) (currency : pyval) : result string :=
  if py_eq currency (VStr "USD") then Ok ("$" +:+ pretty num) else Raise ValueError.

Definition usd_conf : Currencyformat.objconf :=
  {| Currencyformat.conf_currency := VStr "USD" |}.

(** Triples of the currency-format stage. *)
Definition xxx_conf : Currencyformat.objconf :=
  {| Currencyformat.conf_currency := VStr "XXX" |}.

Definition two_nums : list (Currencyformat.objconf * Z * bool) :=
  [(usd_conf, 10%Z, false); (usd_conf, 7%Z, true)].

Definition three_nums : list (Currencyformat.objconf * Z * bool) :=
  [(usd_conf, 7%Z, true); (xxx_conf, 10%Z, false); (usd_conf, 3%Z, false)].

(** What the Deferred of a coroutine carries when the blocking function
    gives [r]: the value handed to [return_value], or the failure. *)
Definition delivered {A : Type} (r : result A) : result (option A) :=
  match r with
  | Ok a => Ok (Some a)
  | Raise e => Raise e
  end.

(** * Properties *)

Ltac unfold_m :=
  unfold calc_rate, raw_rate, parse_result, bind, ret, raise, getitem,
    py_truediv, logger_call in *.

Section CalcRate.
Context {F : Type} `{PyFloat F}.

Lemma py_eq_VStr (s t : string) : py_eq (VStr s) (VStr t) = bool_decide (s = t).
Proof. reflexivity. Qed.

Lemma rate_key_VStr (s : string) : rate_key (VStr s) = "USD/" +:+ s.
Proof. reflexivity. Qed.

(** C3. For distinct currency codes with [toCurrency] other than "USD" and
    a table that has both pivot keys, [calc_rate] is
    [1 / (table["USD/<from>"] * (1 / table["USD/<to>"]))]: each of the two
    divisions raises ZeroDivisionError on a zero divisor, and otherwise
    the rate is returned with nothing logged and no state changed. *)
Theorem calc_rate_cross_rate (fromCurrency toCurrency : string)
    (table : gmap string F) (usd_to_given usd_to_default : F) (st : state F) :
  fromCurrency ≠ toCurrency →
  toCurrency ≠ "USD" →
  table !! ("USD/" +:+ fromCurrency) = Some usd_to_given →
  table !! ("USD/" +:+ toCurrency) = Some usd_to_default →
  calc_rate (VStr fromCurrency) (VStr toCurrency) table st =
    (if f_is_zero usd_to_default then Raise ZeroDivisionError
     else if f_is_zero (f_mul usd_to_given (f_div f_one usd_to_default))
          then Raise ZeroDivisionError
          else Ok (f_div f_one (f_mul usd_to_given (f_div f_one usd_to_default))),
     st).
Proof.
  intros Hne Husd Hgiven Hdefault.
  unfold calc_rate, raw_rate.
  rewrite !py_eq_VStr, !rate_key_VStr.
  rewrite (bool_decide_eq_false_2 _ Hne), (bool_decide_eq_false_2 _ Husd).
  rewrite Hgiven, Hdefault. unfold_m. simpl.
  destruct (f_is_zero usd_to_default); simpl; [reflexivity|].
  destruct (f_is_zero _); reflexivity.
Qed.

(** C8. A falsy word is replaced by [conf.default] before anything else:
    a pass-through pair yields the default, any other pair the rate
    computed from the default as the base currency; [get_base] makes the
    same substitution. *)
Theorem parse_result_falsy_word (conf : objconf) (word : pyval) (_pass : bool)
    (rates : gmap string F) (st : state F) :
  truthy word = false →
  parse_result conf word _pass rates st =
    (if _pass then (Ok (OutVal (conf_default conf)), st)
     else bind (calc_rate (conf_default conf) (conf_quote conf) rates)
            (λ r, ret (OutRate r)) st)
  ∧ (get_base conf word).1 = conf_default conf.
Proof.
  intros Hfalsy. unfold parse_result, get_base, py_or. rewrite Hfalsy.
  split; [|reflexivity]. destruct _pass; reflexivity.
Qed.

End CalcRate.

Lemma calc_rate_cross_rate_EUR_GBP :
  calc_rate (VStr "EUR") (VStr "GBP") example_table (imported 0) =
    (Ok (1 / (0.8234 * (1 / 0.6448)))%float, imported 0)
  ∧ (abs (1 / (0.8234 * (1 / 0.6448)) - 0.78309448627641487) <? 1e-6)%float = true.
Proof.
  split; [|reflexivity].
  exact (calc_rate_cross_rate "EUR" "GBP" example_table 0.8234%float 0.6448%float
           (imported 0) ltac:(discriminate) ltac:(discriminate)
           eq_refl eq_refl).
Defined.

Lemma parse_result_falsy_word_examples :
  parse_result example_conf VNone true example_table (imported 0) =
    (Ok (OutVal (VStr "EUR")), imported 0)
  ∧ parse_result example_conf (VStr "") true example_table (imported 0) =
    (Ok (OutVal (VStr "EUR")), imported 0)
  ∧ parse_result example_conf (VInt 0) false example_table (imported 0) =
    (Ok (OutRate (1 / 0.8234)%float), imported 0).
Proof.
  split; [|split].
  - exact (proj1 (parse_result_falsy_word example_conf VNone true example_table
                    (imported 0) eq_refl)).
  - exact (proj1 (parse_result_falsy_word example_conf (VStr "") true example_table
                    (imported 0) eq_refl)).
  - exact (proj1 (parse_result_falsy_word example_conf (VInt 0) false example_table
                    (imported 0) eq_refl)).
Defined.

(** ** The two arithmetics obey the laws [calc_rate] relies on *)

#[global] Instance F64_laws : PyFloatLaws float.
Proof.
  split; [reflexivity | reflexivity |].
  intros x. cbn [f_pos f_is_zero F64].
  rewrite FloatAxioms.ltb_spec, FloatAxioms.eqb_spec.
  change (Prim2SF 0) with (S754_zero false).
  destruct (Prim2SF x) as [s | s | | s m e]; cbn; try discriminate;
    destruct s; intros; (reflexivity || discriminate).
Qed.

Lemma Qc_pos_nonzero (x : Qc) : (0 < x)%Qc → x ≠ 0%Qc.
Proof. intros Hlt ->. exact (Qclt_not_eq _ _ Hlt eq_refl). Qed.

#[global] Instance Exact_laws : PyFloatLaws Qc.
Proof.
  split.
  - reflexivity.
  - apply Qc_is_canon. reflexivity.
  - intros x. cbn [f_pos f_is_zero Exact]. intros Hpos.
    apply bool_decide_eq_true_1 in Hpos.
    apply bool_decide_eq_false_2. by apply Qc_pos_nonzero.
Qed.

(** In exact arithmetic a positive price times the reciprocal of a positive
    price is positive. *)
Lemma Exact_pos_mul_inv (x y : Qc) :
  f_pos x = true → f_pos y = true → f_pos (f_mul x (f_div f_one y)) = true.
Proof.
  cbn [f_pos f_mul f_div f_one Exact]. intros Hx Hy.
  apply bool_decide_eq_true_1 in Hx. apply bool_decide_eq_true_1 in Hy.
  apply bool_decide_eq_true_2.
  apply Qcmult_pos_pos; [done|].
  unfold Qcdiv. rewrite Qcmult_1_l. by apply Qcinv_pos.
Qed.

(** In binary64 it can be zero: the product underflows. *)
Example F64_pos_mul_inv_underflow :
  f_pos 1e-200%float = true ∧ f_pos 1e200%float = true
  ∧ f_is_zero (f_mul 1e-200 (f_div f_one 1e200))%float = true.
Proof. repeat split. Qed.

(** ** [calc_rate]: lookup errors, the logger, division by zero *)

Section CalcRateErrors.
Context {F : Type} `{PyFloatLaws F}.

(** X22. [calc_rate] raises KeyError exactly in the cross-rate branch with
    a pivot key absent, whatever the state of the module. *)
Lemma calc_rate_KeyError_iff (from_cur to_cur : pyval) (rates : gmap string F)
    (st : state F) :
  (calc_rate from_cur to_cur rates st).1 = Raise KeyError ↔
  cross_branch from_cur to_cur
  ∧ (rates !! rate_key from_cur = None ∨ rates !! rate_key to_cur = None).
Proof.
  unfold cross_branch, calc_rate, raw_rate, bind, getitem, py_truediv,
    logger_call, ret, raise.
  destruct (py_eq from_cur to_cur); simpl.
  - rewrite f_one_nonzero. simpl. split; [discriminate | intros [[? _] _]; discriminate].
  - destruct (py_eq to_cur (VStr "USD")); simpl.
    + split; [|intros [[_ ?] _]; discriminate].
      destruct (rates !! rate_key from_cur) as [rate|]; simpl.
      * destruct (f_is_zero rate); discriminate.
      * destruct (logger st); simpl; [|discriminate].
        rewrite f_one_nonzero. discriminate.
    + destruct (rates !! rate_key from_cur) as [a|]; simpl;
        [|split; [intros _; split; [split|left]; reflexivity | reflexivity]].
      destruct (rates !! rate_key to_cur) as [b|]; simpl;
        [|split; [intros _; split; [split|right]; reflexivity | reflexivity]].
      assert (Hpresent : ¬ ((false = false ∧ false = false)
                            ∧ (Some a = @None F ∨ Some b = @None F))).
      { intros [_ [?|?]]; discriminate. }
      destruct (f_is_zero b); simpl; [split; [discriminate | done]|].
      destruct (f_is_zero (f_mul a (f_div f_one b))); simpl;
        (split; [discriminate | done]).
Qed.

(** X23. Once [logger] is bound, the to-USD branch with the key absent
    logs one warning and returns 1.0. *)
Lemma calc_rate_to_USD_missing_key_logged (from_cur : pyval)
    (rates : gmap string F) (st : state F) :
  logger st = true →
  py_eq from_cur (VStr "USD") = false →
  rates !! rate_key from_cur = None →
  calc_rate from_cur (VStr "USD") rates st =
    (Ok f_one,
     add_log (WARNING, "rate " +:+ rate_key from_cur +:+ " not found in rates") st).
Proof.
  intros Hlogger Hne Hnone. unfold_m.
  rewrite Hne, Hnone. simpl. rewrite Hlogger. simpl.
  rewrite f_one_nonzero. simpl. by rewrite f_one_div_one.
Qed.

(** C9, as amended. With every price strictly positive, the value passed
    to the final [1 / float(rate)] is nonzero in the equal-currency branch
    and in the to-USD branch; in the cross-rate branch it is nonzero when a
    positive price times the reciprocal of a positive price is positive in
    the arithmetic at hand. No division of [calc_rate] is then by zero. *)
Theorem calc_rate_divisor_nonzero (from_cur to_cur : pyval)
    (rates : gmap string F) (st : state F) :
  all_positive rates →
  (cross_branch from_cur to_cur →
   ∀ x y : F, f_pos x = true → f_pos y = true →
              f_pos (f_mul x (f_div f_one y)) = true) →
  (∀ rate st', raw_rate from_cur to_cur rates st = (Ok rate, st') →
               f_is_zero rate = false)
  ∧ (calc_rate from_cur to_cur rates st).1 ≠ Raise ZeroDivisionError.
Proof.
  intros Hpos Hexact.
  assert (Hlook : ∀ k p, rates !! k = Some p → f_is_zero p = false).
  { intros k p Hk. apply f_pos_nonzero. exact (Hpos k p Hk). }
  unfold cross_branch in Hexact.
  unfold calc_rate, raw_rate, bind, getitem, py_truediv, logger_call, ret, raise.
  destruct (py_eq from_cur to_cur); simpl.
  - rewrite f_one_nonzero. simpl. split; [|discriminate].
    intros rate st' [= <- _]. apply f_one_nonzero.
  - destruct (py_eq to_cur (VStr "USD")); simpl.
    + destruct (rates !! rate_key from_cur) as [rate|] eqn:Hk; simpl.
      * rewrite (Hlook _ _ Hk). simpl. split; [|discriminate].
        intros rate' st' [= <- _]. exact (Hlook _ _ Hk).
      * destruct (logger st); simpl; [|split; discriminate].
        rewrite f_one_nonzero. simpl. split; [|discriminate].
        intros rate st' [= <- _]. apply f_one_nonzero.
    + destruct (rates !! rate_key from_cur) as [a|] eqn:Ha; simpl;
        [|split; discriminate].
      destruct (rates !! rate_key to_cur) as [b|] eqn:Hb; simpl;
        [|split; discriminate].
      rewrite (Hlook _ _ Hb). simpl.
      assert (Hnz : f_is_zero (f_mul a (f_div f_one b)) = false).
      { apply f_pos_nonzero. apply Hexact; [done | exact (Hpos _ _ Ha) | exact (Hpos _ _ Hb)]. }
      rewrite Hnz. simpl. split; [|discriminate].
      by intros rate st' [= <- _].
Qed.

End CalcRateErrors.

(** C5. In a process that has only imported the module, [logger] is still
    [None]: the to-USD branch with the key absent reaches
    [logger.warning], which raises AttributeError, where the claim has a
    warning logged and 1.0 returned. *)
Theorem calc_rate_to_USD_missing_key_unbound_logger :
  calc_rate (VStr "EUR") (VStr "USD") (∅ : gmap string float) (imported 0) =
    (Raise AttributeError, imported 0).
Proof. reflexivity. Qed.

(** C9, as stated, fails in binary64: both prices are strictly positive
    and the cross-rate product underflows to zero. *)
Lemma calc_rate_divides_by_zero_on_underflow :
  all_positive extreme_table
  ∧ calc_rate (VStr "AAA") (VStr "BBB") extreme_table (imported 0) =
      (Raise ZeroDivisionError, imported 0).
Proof.
  split; [|reflexivity].
  unfold all_positive, extreme_table.
  repeat (apply map_Forall_insert_2; [reflexivity|]).
  apply map_Forall_empty.
Qed.

Lemma exact_table_positive : all_positive exact_table.
Proof.
  unfold all_positive, exact_table.
  repeat (apply map_Forall_insert_2; [reflexivity|]).
  apply map_Forall_empty.
Defined.

Lemma calc_rate_divisor_nonzero_exact :
  (∀ rate st', raw_rate (VStr "EUR") (VStr "GBP") exact_table (imported 0) =
                 (Ok rate, st') → f_is_zero rate = false)
  ∧ (calc_rate (VStr "EUR") (VStr "GBP") exact_table (imported 0)).1
      ≠ Raise ZeroDivisionError.
Proof.
  exact (calc_rate_divisor_nonzero (VStr "EUR") (VStr "GBP") exact_table
           (imported 0) exact_table_positive (λ _, Exact_pos_mul_inv)).
Defined.

(** ** Inverse consistency *)








(** Binary64 does not: on the two prices of the spec's example,
    [1 / (x * (1 / y))] and [y * (1 / x)] differ in the last place. *)
Lemma F64_reciprocal_laws_fail : ¬ reciprocal_laws float.
Proof.
  intros [_ Hswap].
  specialize (Hswap 0.8234%float 0.6448%float eq_refl eq_refl).
  assert (Hneq : PrimFloat.eqb
            (f_div f_one (f_mul 0.8234%float (f_div f_one 0.6448%float)))
            (f_mul 0.6448%float (f_div f_one 0.8234%float)) = false)
    by reflexivity.
  rewrite Hswap in Hneq. vm_compute in Hneq. discriminate.
Qed.

(** A self-pair other than 1 breaks the identity even where every
    operation is exact: the hypothesis on "USD/USD" is needed. *)
Example self_pair_needed :
  calc_rate (VStr "EUR") (VStr "USD") skewed_table (imported 0) =
    (Ok 0.25%float, imported 0)
  ∧ calc_rate (VStr "USD") (VStr "EUR") skewed_table (imported 0) =
    (Ok 2%float, imported 0)
  ∧ (0.25 =? 1 / 2)%float = false.
Proof. repeat split. Qed.

Section InverseConsistency.
Context {F : Type} `{PyFloatLaws F}.


End InverseConsistency.




(** ** [parse_request] *)

Section ParseRequest.
Context {F : Type}.

Lemma dict_comp_well_formed (resources : list (record F)) :
  ∀ (acc : gmap string F) (st : state F),
    forallb well_formed resources = true →
    ∃ table, dict_comp resources acc st = (Ok table, st)
             ∧ ∀ k, table !! k = last_price k resources (acc !! k).
Proof.
  induction resources as [|r rest IH]; intros acc st Hwf.
  - exists acc. split; reflexivity.
  - cbn [forallb] in Hwf. apply andb_prop in Hwf as [Hr Hrest].
    unfold well_formed in Hr. apply bool_decide_eq_true_1 in Hr.
    destruct Hr as [[name price] Hentry].
    destruct (IH (<[name := price]> acc) st Hrest) as (table & Hrun & Hlook).
    exists table. split.
    + unfold record_entry in Hentry. cbn [dict_comp].
      destruct r as [[[[[[n|] [p|]]|]]|]]; try discriminate.
      injection Hentry as -> ->. exact Hrun.
    + intros k. rewrite Hlook. unfold last_price. cbn [fold_left].
      rewrite Hentry, lookup_insert.
      case_bool_decide; case_decide; done.
Qed.

Lemma dict_comp_malformed (resources : list (record F)) :
  ∀ (acc : gmap string F) (st : state F),
    forallb well_formed resources = false →
    dict_comp resources acc st = (Raise KeyError, st).
Proof.
  induction resources as [|r rest IH]; intros acc st Hwf; [discriminate|].
  cbn [forallb] in Hwf. cbn [dict_comp].
  destruct (well_formed r) eqn:Hr.
  - unfold well_formed in Hr. apply bool_decide_eq_true_1 in Hr.
    destruct Hr as [[name price] Hentry]. unfold record_entry in Hentry.
    destruct r as [[[[[[n|] [p|]]|]]|]]; try discriminate.
    injection Hentry as -> ->. exact (IH _ _ Hwf).
  - unfold well_formed in Hr. apply bool_decide_eq_false_1 in Hr.
    unfold record_entry in Hr.
    destruct r as [[[[[[n|] [p|]]|]]|]]; try reflexivity.
    exfalso. apply Hr. by eexists.
Qed.

(** C4, as amended. On a payload of the shape
    [list.resources[].resource.fields], when every record has the whole
    resource/fields/name/price structure the table maps each name to the
    price of the last record that has it, and nothing else; a record that
    lacks part of the structure raises KeyError, and no table is
    returned. *)
Theorem parse_request_flattens_or_aborts (resources : list (record F))
    (st : state F) :
  if forallb well_formed resources
  then ∃ table, parse_request (payload_of resources) st = (Ok table, st)
                ∧ ∀ k, table !! k = last_price k resources None
  else parse_request (payload_of resources) st = (Raise KeyError, st).
Proof.
  destruct (forallb well_formed resources) eqn:Hwf.
  - destruct (dict_comp_well_formed resources ∅ st Hwf) as (table & Hrun & Hlook).
    exists table. split; [exact Hrun|].
    intros k. rewrite Hlook. by rewrite lookup_empty.
  - exact (dict_comp_malformed resources ∅ st Hwf).
Qed.

End ParseRequest.

(** C4, as stated, fails: one record without its price, after a complete
    one, and the whole parse raises instead of returning the table of the
    complete record. *)
Lemma parse_request_malformed_record_aborts :
  parse_request (payload_of [quote "USD/EUR" 0.8234%float; priceless]) (imported 0) =
    (Raise KeyError, imported 0)
  ∧ ∀ table : gmap string float,
      parse_request (payload_of [quote "USD/EUR" 0.8234%float; priceless]) (imported 0)
      ≠ (Ok table, imported 0).
Proof. split; [reflexivity | intros table; discriminate]. Qed.

(** The module's [FIELDS], as a payload, parse to the rate table. *)
Example parse_request_FIELDS :
  ∃ table,
    parse_request (ObjJson FIELDS_payload) (imported 0) = (Ok table, imported 0)
    ∧ table !! "USD/EUR" = Some 0.8234%float
    ∧ table !! "USD/SGD" = Some 1.34%float
    ∧ table !! "EUR/USD" = None.
Proof. eexists. split; [reflexivity|]. repeat split. Qed.

(** ** The memoised fetch *)

Section Cache.
Context {F : Type} (w : world F).

Lemma steady_memoize (key : string) (fetchFn : M F (pyobj F)) :
  steady fetchFn → steady (memoize key HALF_DAY fetchFn).
Proof.
  intros Hfetch st. unfold memoize.
  destruct (Hfetch st) as (Hnow & Hlogger & rest & Hio).
  assert (Hrefl : ∃ rest0, io st = io st ++ rest0) by (exists []; by rewrite app_nil_r).
  destruct (cache st !! key) as [[v fetchedAt]|].
  - destruct (now st - fetchedAt <? HALF_DAY)%Z; [done|].
    destruct (fetchFn st) as [[v'|e] st']; cbn in *; eauto.
  - destruct (fetchFn st) as [[v'|e] st']; cbn in *; eauto.
Qed.

Lemma steady_offline_body (err : option bool) :
  steady (asyncGetOfflineRateData_body w err).
Proof.
  intros st. unfold asyncGetOfflineRateData_body, bind, logger_call, ret.
  destruct (logger st) eqn:Hlogger; cbn.
  - destruct (kw_err err); cbn; rewrite ?Hlogger; cbn;
      (split; [done | split; [done | eexists; rewrite <- ?app_assoc; done]]).
  - split; [done | split; [done | exists []; by rewrite app_nil_r]].
Qed.

(** The underlying fetch of either strategy leaves the clock and [logger]
    alone; it issues the GET whenever it gets past its first line, which
    the blocking one always does and the suspendable one does when
    [logger] is bound. *)
Lemma rate_data_body_state (s : strategy) (st : state F) :
  now (rate_data_body s w st).2 = now st
  ∧ logger (rate_data_body s w st).2 = logger st
  ∧ (s = Blocking ∨ logger st = true →
     ∃ rest, io (rate_data_body s w st).2 = io st ++ HttpGet :: rest).
Proof.
  destruct s; cbn [rate_data_body].
  - unfold get_rate_data_body, bind, requests_get, raise, ret.
    destruct (remote w) as [[|p]|e]; cbn; (split; [done | split; [done | intros _; by exists []]]).
  - unfold asyncGetRateData_body, bind, logger_call, ret.
    destruct (logger st) eqn:Hlogger; cbn.
    + destruct (remote w) as [[|p]|e]; cbn;
        try (split; [done | split; [done | intros _; by exists []]]).
      destruct (steady_memoize "asyncGetOfflineRateData(failure)" _
                  (steady_offline_body None) (add_io HttpGet (add_log (DEBUG, "asyncGetRateData") st)))
        as (Hnow & Hlog & rest & Hio).
      unfold asyncGetOfflineRateData_errback.
      destruct (memoize _ _ _ _) as [[[p|d]|e'] st']; cbn in *;
        (split; [done | split; [by rewrite Hlog | intros _; exists rest;
                                by rewrite Hio, <- app_assoc]]).
    + split; [done | split; [done | intros [?|?]; discriminate]].
Qed.

Lemma rate_data_body_Ok_logger (st st' : state F) (v : pyobj F) :
  rate_data_body Suspendable w st = (Ok v, st') → logger st = true.
Proof.
  cbn [rate_data_body]. unfold asyncGetRateData_body, bind, logger_call.
  destruct (logger st); [done | discriminate].
Qed.

Lemma rate_data_fetch_unfold (s : strategy) :
  rate_data_fetch s w = memoize (rate_data_key s) HALF_DAY (rate_data_body s w).
Proof. by destruct s. Qed.

(** C6. A call of the rate-data fetch that finds no live entry and whose
    underlying fetch succeeds issues that one fetch and stores its value;
    every call within the 12 hours that follow returns the value from the
    cache and leaves the I/O trace, and the whole state, as they were; a
    call once the 12 hours have passed issues the GET again. *)
Theorem rate_data_fetch_once_per_window (s : strategy) (st st' : state F)
    (v : pyobj F) :
  no_live_entry (rate_data_key s) st →
  rate_data_body s w st = (Ok v, st') →
  let st1 := store (rate_data_key s) v st' in
  rate_data_fetch s w st = (Ok v, st1)
  ∧ (∃ rest, io st1 = io st ++ HttpGet :: rest)
  ∧ (∀ t, (now st ≤ t < now st + HALF_DAY)%Z →
          rate_data_fetch s w (set_now t st1) = (Ok v, set_now t st1))
  ∧ (∀ t, (now st + HALF_DAY ≤ t)%Z →
          ∃ rest, io (rate_data_fetch s w (set_now t st1)).2
                  = io st1 ++ HttpGet :: rest).
Proof.
  intros Hdead Hbody st1.
  destruct (rate_data_body_state s st) as (Hnow & Hlogger & Hget).
  rewrite Hbody in Hnow, Hlogger, Hget. cbn [snd] in Hnow, Hlogger, Hget.
  assert (Hissued : s = Blocking ∨ logger st = true).
  { destruct s; [by left | right]. exact (rate_data_body_Ok_logger _ _ _ Hbody). }
  rewrite rate_data_fetch_unfold.
  assert (Hentry : ∀ t, cache (set_now t st1) !! rate_data_key s = Some (v, now st)).
  { intros t. subst st1. cbn. by rewrite lookup_insert_eq, Hnow. }
  split; [|split; [|split]].
  - unfold memoize, no_live_entry in *.
    destruct (cache st !! rate_data_key s) as [[v0 fetchedAt]|].
    + destruct (Z.ltb_spec (now st - fetchedAt) HALF_DAY) as [Hlive|_]; [lia|].
      by rewrite Hbody.
    + by rewrite Hbody.
  - subst st1. cbn. exact (Hget Hissued).
  - intros t Ht. unfold memoize. rewrite Hentry.
    destruct (Z.ltb_spec (now (set_now t st1) - now st) HALF_DAY) as [_|Hdeadline];
      [done | cbn in Hdeadline; lia].
  - intros t Ht. unfold memoize. rewrite Hentry.
    destruct (Z.ltb_spec (now (set_now t st1) - now st) HALF_DAY) as [Hlive|_];
      [cbn in Hlive; lia|].
    destruct (rate_data_body_state s (set_now t st1)) as (_ & _ & Hagain).
    assert (Hissued' : s = Blocking ∨ logger (set_now t st1) = true).
    { destruct Hissued as [->|Hl]; [by left | right]. subst st1. cbn. congruence. }
    specialize (Hagain Hissued').
    destruct (rate_data_body s w (set_now t st1)) as [[v'|e] st'']; cbn in *; exact Hagain.
Qed.

End Cache.

Lemma rate_data_fetch_once_per_window_blocking :
  rate_data_fetch Blocking live_world (imported 0)
    = (Ok (ObjJson FIELDS_payload), first_fetch_state)
  ∧ io first_fetch_state = [HttpGet]
  ∧ rate_data_fetch Blocking live_world (set_now 43199 first_fetch_state)
    = (Ok (ObjJson FIELDS_payload), set_now 43199 first_fetch_state)
  ∧ ∃ rest, io (rate_data_fetch Blocking live_world
                  (set_now 43200 first_fetch_state)).2
            = io first_fetch_state ++ HttpGet :: rest.
Proof.
  destruct (rate_data_fetch_once_per_window live_world Blocking (imported 0)
              (add_io HttpGet (imported 0)) (ObjJson FIELDS_payload) I eq_refl)
    as (Hfirst & _ & Hwithin & Hafter).
  split; [exact Hfirst|]. split; [reflexivity|].
  split; [apply Hwithin; cbn; unfold HALF_DAY; lia|].
  apply Hafter. cbn. unfold HALF_DAY. lia.
Defined.

(** ** The fallback, and the two strategies side by side *)

(** X24. With nothing cached, a GET that raises makes the blocking fetch
    raise the same exception after that one GET: the snapshot is not
    read. *)
Lemma get_rate_data_propagates {F : Type} (w : world F) (st : state F) (e : exn) :
  remote w = Raise e →
  cache st !! "get_rate_data()" = None →
  get_rate_data w st = (Raise e, add_io HttpGet st).
Proof.
  intros Hremote Hcache.
  unfold get_rate_data, memoize, get_rate_data_body, bind, requests_get.
  by rewrite Hcache, Hremote.
Qed.

(** C2. The GET raises and nothing is cached: the blocking fetch raises
    the same exception and never reads the snapshot, where the claim has
    it fall back to the snapshot as the suspendable fetch does. *)
Theorem get_rate_data_no_fallback :
  get_rate_data down_world (imported 0) =
    (Raise ConnectionError, add_io HttpGet (imported 0))
  ∧ (asyncGetRateData down_world (set_logger true (imported 0))).1 =
      Ok (ObjDeferred (Succeeded FIELDS_payload)).
Proof. split; reflexivity. Qed.

(** A response that does not decode is not recovered by either strategy:
    the blocking fetch raises ValueError, the suspendable one returns a
    failed Deferred, and neither reads the snapshot. *)
Lemma unparseable_response_no_fallback :
  get_rate_data garbled_world (imported 0) =
    (Raise ValueError, add_io HttpGet (imported 0))
  ∧ (asyncGetRateData garbled_world (set_logger true (imported 0))).1 =
      Ok (ObjDeferred (Failed ValueError))
  ∧ io (asyncGetRateData garbled_world (set_logger true (imported 0))).2 = [HttpGet].
Proof. repeat split. Qed.

(** C1. Two inputs on which the strategies part ways. Exchange rates,
    no [offline], the rate service answering: the blocking stage fetches
    and parses the rates and raises NameError at [get_split]; the
    suspendable stage fails before, with TypeError, because its online
    branch lacks the [yield] its offline branch has and hands
    [parse_request] the Deferred itself. Site feed, a site that advertises
    no feed: [parser] raises the StopIteration of [next(rss)]; in the
    coroutine the same StopIteration ends the generator, and the Deferred
    of [async_parser] fires with [None] (fails with RuntimeError under
    PEP 479). *)
Theorem blocking_and_suspendable_differ :
  (pipe_exchangerate live_world one_item_dispatch tt ∅ tt (imported 0) =
     (Raise NameError, first_fetch_state)
   ∧ (asyncPipeExchangerate live_world one_item_asyncDispatch tt ∅ tt
        (imported 0)).1 = Raise TypeError)
  ∧ ((Fetchsitefeed.parser site_abspath bare_get_rss site_parse_rss
        site_gen_entries VNone site_conf false ∅ []).1 = Raise StopIteration
     ∧ ∀ pep479 : bool,
         (Fetchsitefeed.async_parser site_abspath bare_asyncGetRSS site_url_read
            site_parse_rss site_gen_entries pep479 VNone site_conf false ∅ []).1
         = if pep479 then Raise RuntimeError else Ok None).
Proof.
  split; [split; reflexivity|]. split; [reflexivity|].
  intros [|]; reflexivity.
Qed.

(** ** The site-feed stage: the skip flag *)

(** C10. With the skip flag set, both parsers return the stream passed
    as [kwargs['stream']] and the flag, and call no collaborator: the
    trace of calls is the one they started with. *)
Theorem parser_skip {Stream Parsed : Type}
    (get_abspath : string → string)
    (get_rss : string → result (list (gmap string string)))
    (asyncGetRSS : string → deferred (list (gmap string string)))
    (async_url_read : string → deferred string)
    (parse_rss : string → result Parsed) (gen_entries : Parsed → Stream)
    (pep479 : bool) (ignored : pyval) (conf : Fetchsitefeed.objconf)
    (kwargs : gmap string Stream) (stream : Stream)
    (calls : list Fetchsitefeed.call) :
  kwargs !! "stream" = Some stream →
  Fetchsitefeed.parser get_abspath get_rss parse_rss gen_entries
    ignored conf true kwargs calls = (Ok (stream, true), calls)
  ∧ Fetchsitefeed.async_parser get_abspath asyncGetRSS async_url_read parse_rss
      gen_entries pep479 ignored conf true kwargs calls
    = (Ok (Some (stream, true)), calls).
Proof.
  intros Hstream.
  unfold Fetchsitefeed.parser, Fetchsitefeed.async_parser, Fetchsitefeed.coroutine,
    Fetchsitefeed.async_parser_gen, Fetchsitefeed.bind,
    Fetchsitefeed.getitem, Fetchsitefeed.ret.
  rewrite Hstream. split; reflexivity.
Qed.

Lemma parser_skip_example :
  Fetchsitefeed.parser (λ p, p) (λ _, Raise IOError) (λ _, Raise ValueError)
    (λ _ : unit, [VStr "entry"]) VNone {| Fetchsitefeed.url := "bbc.html" |}
    true {["stream" := [VStr "item"]]} [] = (Ok ([VStr "item"], true), [])
  ∧ Fetchsitefeed.async_parser (λ p, p) (λ _, Failed IOError) (λ _, Failed IOError)
      (λ _, Raise ValueError) (λ _ : unit, [VStr "entry"]) false VNone
      {| Fetchsitefeed.url := "bbc.html" |}
      true {["stream" := [VStr "item"]]} [] = (Ok (Some ([VStr "item"], true)), []).
Proof.
  exact (parser_skip (λ p, p) (λ _, Raise IOError) (λ _, Failed IOError)
           (λ _, Failed IOError) (λ _, Raise ValueError)
           (λ _ : unit, [VStr "entry"]) false VNone
           {| Fetchsitefeed.url := "bbc.html" |}
           {["stream" := [VStr "item"]]} [VStr "item"] [] eq_refl).
Defined.

(** ** Where the two strategies do agree: the offline branch *)

Section Offline.
Context {F : Type} `{PyFloat F} (w : world F).
Context {Item Kwargs Split : Type}.
Context (dispatch : Split → list (objconf * pyval * bool)).
Context (asyncDispatch : Split → deferred (list (objconf * pyval * bool))).

(** What [calc_rate] returns depends on the state through [logger] only,
    and it leaves [logger] as it found it. *)
Lemma calc_rate_logger_only (from_cur to_cur : pyval) (rates : gmap string F)
    (st1 st2 : state F) :
  logger st1 = logger st2 →
  (calc_rate from_cur to_cur rates st1).1 = (calc_rate from_cur to_cur rates st2).1
  ∧ logger (calc_rate from_cur to_cur rates st1).2 = logger st1
  ∧ logger (calc_rate from_cur to_cur rates st2).2 = logger st2.
Proof.
  intros Hlogger.
  unfold calc_rate, raw_rate, bind, getitem, py_truediv, logger_call, ret, raise.
  destruct (py_eq from_cur to_cur); cbn.
  { destruct (f_is_zero f_one); done. }
  destruct (py_eq to_cur (VStr "USD")); cbn.
  - destruct (rates !! rate_key from_cur) as [rate|]; cbn.
    + destruct (f_is_zero rate); done.
    + rewrite <- Hlogger. destruct (logger st1) eqn:Hl1; cbn; [|done].
      destruct (f_is_zero f_one); cbn; done.
  - destruct (rates !! rate_key from_cur) as [a|]; cbn; [|done].
    destruct (rates !! rate_key to_cur) as [b|]; cbn; [|done].
    destruct (f_is_zero b); cbn; [done|].
    destruct (f_is_zero (f_mul a (f_div f_one b))); done.
Qed.

Lemma starmap_logger_only (rates : gmap string F)
    (parsed : list (objconf * pyval * bool)) :
  ∀ st1 st2 : state F,
    logger st1 = logger st2 →
    (starmap rates parsed st1).1 = (starmap rates parsed st2).1.
Proof.
  induction parsed as [|[[conf word] _pass] rest IH]; intros st1 st2 Hlogger;
    [done|].
  cbn [starmap]. unfold parse_result, bind, ret.
  destruct _pass.
  - specialize (IH st1 st2 Hlogger).
    destruct (starmap rates rest st1) as [[os1|e1] st1'],
             (starmap rates rest st2) as [[os2|e2] st2']; cbn in *; congruence.
  - destruct (calc_rate_logger_only (py_or word (conf_default conf))
                (conf_quote conf) rates st1 st2 Hlogger) as (Hout & Hl1 & Hl2).
    destruct (calc_rate _ _ rates st1) as [[r1|e1] st1'],
             (calc_rate _ _ rates st2) as [[r2|e2] st2']; cbn in *; try congruence.
    injection Hout as ->.
    assert (Hl : logger st1' = logger st2') by congruence.
    specialize (IH st1' st2' Hl).
    destruct (starmap rates rest st1') as [[os1|e1] st1''],
             (starmap rates rest st2') as [[os2|e2] st2'']; cbn in *; congruence.
Qed.

Lemma parse_request_pure (json : pyobj F) :
  ∃ r, ∀ st : state F, parse_request json st = (r, st).
Proof.
  destruct json as [[[[[resources|]]|]]|d]; cbn;
    try (by eexists; intros st; reflexivity).
  unfold bind, getitem, ret. cbn.
  generalize (∅ : gmap string F).
  induction resources as [|[[[[[[n|] [p|]]|]]|]] rest IH]; intros acc; cbn;
    try (by eexists; intros st; reflexivity).
  destruct (IH (<[n := p]> acc)) as [r Hr]. exists r. intros st.
  unfold bind, getitem, ret. cbn. apply Hr.
Qed.

Lemma get_offline_rate_data_miss (st : state F) :
  logger st = true →
  cache st !! "get_offline_rate_data(err=False)" = None →
  ∃ st', logger st' = true
         ∧ get_offline_rate_data w (Some false) st = (fetched (snapshot w), st').
Proof.
  intros Hlogger Hmiss.
  unfold get_offline_rate_data, memoize.
  change (call_key "get_offline_rate_data" (Some false))
    with "get_offline_rate_data(err=False)".
  rewrite Hmiss.
  unfold get_offline_rate_data_body, bind, logger_call, urlopen_local, ret, kw_err.
  cbn. rewrite Hlogger. cbn.
  destruct (snapshot w) as [p|e]; cbn; eexists; (split; [|reflexivity]); done.
Qed.

Lemma asyncGetOfflineRateData_miss (st : state F) :
  logger st = true →
  cache st !! "asyncGetOfflineRateData(err=False)" = None →
  ∃ st', logger st' = true
         ∧ bind (asyncGetOfflineRateData w (Some false)) (λ d, yield_obj d) st
           = (fetched (snapshot w), st').
Proof.
  intros Hlogger Hmiss.
  unfold bind at 1. unfold asyncGetOfflineRateData, memoize.
  change (call_key "asyncGetOfflineRateData" (Some false))
    with "asyncGetOfflineRateData(err=False)".
  rewrite Hmiss.
  unfold asyncGetOfflineRateData_body, bind, logger_call, ret, kw_err.
  cbn. rewrite Hlogger. cbn.
  destruct (snapshot w) as [p|e]; cbn; eexists; (split; [|reflexivity]); done.
Qed.

(** X25. With [offline] set, [logger] bound and nothing cached for the
    two offline fetchers, the blocking and the suspendable stage emit the
    same stream, or fail alike, whatever the dispatch helpers return. *)
Lemma offline_strategies_agree (item : Item)
    (conf : gmap string (gmap string pyval)) (kwargs : Kwargs) (st : state F) :
  truthy (conf_get_offline conf) = true →
  logger st = true →
  cache st !! "get_offline_rate_data(err=False)" = None →
  cache st !! "asyncGetOfflineRateData(err=False)" = None →
  (pipe_exchangerate w dispatch item conf kwargs st).1 =
  (asyncPipeExchangerate w asyncDispatch item conf kwargs st).1.
Proof.
  intros Hoffline Hlogger Hsync Hasync.
  destruct (get_offline_rate_data_miss st Hlogger Hsync) as (sta & Hla & Hrun_s).
  destruct (asyncGetOfflineRateData_miss (set_logger true st) eq_refl Hasync)
    as (stb & Hlb & Hrun_a).
  unfold pipe_exchangerate, asyncPipeExchangerate. rewrite Hoffline.
  unfold bind at 1. rewrite Hrun_s.
  unfold bind at 3. unfold get_logger. cbn beta iota.
  unfold bind at 3. rewrite Hrun_a.
  destruct (snapshot w) as [p|e]; cbn [fetched]; [|done].
  unfold bind at 1 3.
  destruct (parse_request_pure (ObjJson p)) as [r Hr]. rewrite !Hr.
  destruct r as [rates|e]; [|done].
  reflexivity.
Qed.

End Offline.

(** From a fresh process the offline branch parts ways as well: the
    blocking stage reaches [logger.warning] with [logger] still [None],
    the suspendable stage binds [logger] first and gets as far as
    [asyncGetSplit]. *)
Example offline_fresh_process :
  (pipe_exchangerate live_world one_item_dispatch tt
     {["offline" := {["value" := VStr "1"]}]} tt (imported 0)).1
    = Raise AttributeError
  ∧ (asyncPipeExchangerate live_world one_item_asyncDispatch
       tt {["offline" := {["value" := VStr "1"]}]} tt (imported 0)).1
    = Raise NameError.
Proof. split; reflexivity. Qed.

(** * Further properties of the stages *)

(** ** [calc_rate] *)

Lemma py_eq_refl (v : pyval) : py_eq v v = true.
Proof.
  destruct v as [|b|z|s]; cbn; try done.
  - destruct b; done.
  - apply Z.eqb_refl.
  - by apply bool_decide_eq_true_2.
Qed.

Section CalcRateMore.
Context {F : Type} `{PyFloat F}.

(** X1. Equal currencies: whenever [from_cur == to_cur], [calc_rate]
    returns 1.0 without looking at the table, and leaves the state as it
    found it. *)
Theorem calc_rate_same_currency `{!PyFloatLaws F} (from_cur to_cur : pyval)
    (rates : gmap string F) (st : state F) :
  py_eq from_cur to_cur = true →
  calc_rate from_cur to_cur rates st = (Ok f_one, st).
Proof.
  intros Heq. unfold_m. rewrite Heq. cbn beta iota.
  rewrite f_one_nonzero. cbn beta iota. by rewrite f_one_div_one.
Qed.

(** X2. Conversion to USD with the pivot entry present: the result is
    [1 / rates["USD/<from>"]], a zero price raises ZeroDivisionError, and
    nothing is logged. *)
Theorem calc_rate_to_USD_found (from_cur : pyval) (rates : gmap string F)
    (price : F) (st : state F) :
  py_eq from_cur (VStr "USD") = false →
  rates !! rate_key from_cur = Some price →
  calc_rate from_cur (VStr "USD") rates st =
    (if f_is_zero price then Raise ZeroDivisionError
     else Ok (f_div f_one price), st).
Proof.
  intros Hne Hprice. unfold calc_rate, raw_rate.
  rewrite Hne, py_eq_refl, Hprice. unfold bind, ret, py_truediv, raise.
  destruct (f_is_zero price); reflexivity.
Qed.

(** X3. The only thing [calc_rate] ever does to the state is to append
    the warning of the to-USD branch, when the key is absent and [logger]
    is bound: it issues no I/O and never touches the cache, the clock or
    [logger]. *)
Theorem calc_rate_state (from_cur to_cur : pyval) (rates : gmap string F)
    (st : state F) :
  (calc_rate from_cur to_cur rates st).2 =
    if calc_rate_warns from_cur to_cur rates st
    then add_log (WARNING, "rate " +:+ rate_key from_cur +:+ " not found in rates") st
    else st.
Proof.
  unfold calc_rate_warns, calc_rate, raw_rate, bind, getitem, py_truediv,
    logger_call, ret, raise.
  destruct (py_eq from_cur to_cur); cbn.
  { destruct (f_is_zero f_one); done. }
  destruct (py_eq to_cur (VStr "USD")); cbn.
  - destruct (rates !! rate_key from_cur) as [rate|] eqn:Hk; cbn.
    + destruct (f_is_zero rate); done.
    + destruct (logger st); cbn; [|done].
      destruct (f_is_zero f_one); done.
  - destruct (rates !! rate_key from_cur) as [a|]; cbn; [|done].
    destruct (rates !! rate_key to_cur) as [b|]; cbn; [|done].
    destruct (f_is_zero b); cbn; [done|].
    destruct (f_is_zero (f_mul a (f_div f_one b))); done.
Qed.

(** X4. [calc_rate] reads at most the two pivot entries: two tables that
    agree on "USD/<from>" and "USD/<to>" give the same result and the same
    state, whatever else they hold. *)
Theorem calc_rate_reads_two_keys (from_cur to_cur : pyval)
    (rates1 rates2 : gmap string F) (st : state F) :
  rates1 !! rate_key from_cur = rates2 !! rate_key from_cur →
  rates1 !! rate_key to_cur = rates2 !! rate_key to_cur →
  calc_rate from_cur to_cur rates1 st = calc_rate from_cur to_cur rates2 st.
Proof.
  intros Hfrom Hto. unfold calc_rate, raw_rate. by rewrite Hfrom, Hto.
Qed.

(** X5. [get_base] and [parse_result] make the same choice of base:
    feeding [parse_result] the base [get_base] chose changes nothing, a
    truthy word is its own base, and [offline] is False when the
    configuration has no such attribute. *)
Theorem get_base_parse_result (conf : objconf) (word : pyval) (_pass : bool)
    (rates : gmap string F) (st : state F) :
  parse_result conf (get_base conf word).1 _pass rates st =
    parse_result conf word _pass rates st
  ∧ (get_base conf word).1 = (if truthy word then word else conf_default conf)
  ∧ (get_base conf word).2 = default (VBool false) (conf_offline conf).
Proof.
  unfold parse_result, get_base, py_or. cbn [fst snd].
  split; [|split; [done | by destruct (conf_offline conf)]].
  destruct (truthy word) eqn:Hw; [by rewrite Hw|].
  by destruct (truthy (conf_default conf)).
Qed.

End CalcRateMore.

Lemma calc_rate_same_currency_EUR :
  calc_rate (VStr "EUR") (VStr "EUR") (∅ : gmap string float) (imported 0) =
    (Ok 1%float, imported 0)
  ∧ calc_rate (VBool true) (VInt 1) (∅ : gmap string float) (imported 0) =
    (Ok 1%float, imported 0).
Proof.
  split.
  - exact (calc_rate_same_currency (VStr "EUR") (VStr "EUR") ∅ (imported 0) eq_refl).
  - exact (calc_rate_same_currency (VBool true) (VInt 1) ∅ (imported 0) eq_refl).
Defined.

Lemma calc_rate_to_USD_found_EUR :
  calc_rate (VStr "EUR") (VStr "USD") example_table (imported 0) =
    (Ok (1 / 0.8234)%float, imported 0).
Proof.
  exact (calc_rate_to_USD_found (VStr "EUR") example_table 0.8234%float
           (imported 0) eq_refl eq_refl).
Defined.

Lemma calc_rate_reads_two_keys_example :
  calc_rate (VStr "EUR") (VStr "GBP") example_table (imported 0) =
  calc_rate (VStr "EUR") (VStr "GBP")
    (<["USD/INR" := 63.6810%float]> (<["USD/USD" := 7%float]> example_table)) (imported 0).
Proof.
  apply calc_rate_reads_two_keys; vm_compute; reflexivity.
Defined.

(** ** [parse_request]: what the table holds *)

Section ParseRequestMore.
Context {F : Type}.

Lemma record_names_cons (r : record F) (rest : list (record F)) :
  record_names (r :: rest) =
    match record_entry r with
    | Some (name, _) => name :: record_names rest
    | None => record_names rest
    end.
Proof.
  unfold record_names. cbn [omap list_omap].
  destruct (record_entry r) as [[name price]|]; reflexivity.
Qed.

Lemma last_price_cons (k : string) (r : record F) (rest : list (record F))
    (known : option F) :
  last_price k (r :: rest) known =
    last_price k rest
      match record_entry r with
      | Some (name, price) => if bool_decide (name = k) then Some price else known
      | None => known
      end.
Proof. reflexivity. Qed.

Lemma last_price_is_Some (k : string) (resources : list (record F)) :
  ∀ known : option F,
    is_Some (last_price k resources known) ↔
    is_Some known ∨ k ∈ record_names resources.
Proof.
  induction resources as [|r rest IH]; intros known.
  - cbn. rewrite elem_of_nil. tauto.
  - rewrite last_price_cons, record_names_cons.
    destruct (record_entry r) as [[name price]|].
    + rewrite IH, elem_of_cons. case_bool_decide as Hname.
      * subst. split; [auto | intros _; left; by eexists].
      * split; [tauto | intros [?|[?|?]]; [tauto | congruence | tauto]].
    + apply IH.
Qed.

Lemma last_price_not_named (k : string) (resources : list (record F)) :
  ∀ known : option F,
    k ∉ record_names resources → last_price k resources known = known.
Proof.
  induction resources as [|r rest IH]; intros known Hnot; [done|].
  rewrite last_price_cons. rewrite record_names_cons in Hnot.
  destruct (record_entry r) as [[name price]|]; [|by apply IH].
  apply not_elem_of_cons in Hnot as [Hne Hrest].
  rewrite bool_decide_eq_false_2 by done. by apply IH.
Qed.

Lemma last_price_distinct (k : string) (p : F) (resources : list (record F)) :
  ∀ known : option F,
    NoDup (record_names resources) →
    (k, p) ∈ omap record_entry resources →
    last_price k resources known = Some p.
Proof.
  induction resources as [|r rest IH]; intros known Hnodup Hin.
  - by apply elem_of_nil in Hin.
  - rewrite last_price_cons.
    rewrite record_names_cons in Hnodup. cbn [omap list_omap] in Hin.
    destruct (record_entry r) as [[name price]|]; [|by apply IH].
    apply NoDup_cons in Hnodup as [Hfresh Hnodup].
    apply elem_of_cons in Hin as [[= -> ->]|Hin].
    + rewrite bool_decide_eq_true_2 by done. by apply last_price_not_named.
    + by apply IH.
Qed.

Lemma size_list_to_set_le (l : list string) :
  size (list_to_set l : gset string) ≤ length l.
Proof.
  induction l as [|x l IH]; cbn [list_to_set length].
  - by rewrite size_empty.
  - rewrite size_union_alt, size_singleton.
    assert (Hsub : (list_to_set l ∖ {[x]} : gset string) ⊆ list_to_set l)
      by apply subseteq_difference_l, reflexivity.
    apply subseteq_size in Hsub. lia.
Qed.

Lemma record_names_length (resources : list (record F)) :
  length (record_names resources) ≤ length resources
  ∧ (forallb well_formed resources = true →
     length (record_names resources) = length resources).
Proof.
  induction resources as [|r rest [IHle IHeq]]; [done|].
  rewrite record_names_cons. cbn [forallb length]. unfold well_formed at 1.
  destruct (record_entry r) as [[name price]|]; cbn [length].
  - split; [lia|]. intros [_ Hrest]%andb_prop. by rewrite IHeq.
  - split; [lia|]. rewrite bool_decide_eq_false_2; [done|]. by intros [? ?].
Qed.

Lemma parse_request_Ok_well_formed (resources : list (record F))
    (table : gmap string F) (st st' : state F) :
  parse_request (payload_of resources) st = (Ok table, st') →
  forallb well_formed resources = true
  ∧ ∀ k, table !! k = last_price k resources None.
Proof.
  intros Hrun. destruct (forallb well_formed resources) eqn:Hwf.
  - split; [done|].
    destruct (dict_comp_well_formed resources ∅ st Hwf) as (table' & Hrun' & Hlook).
    change (parse_request (payload_of resources) st)
      with (dict_comp resources ∅ st) in Hrun.
    rewrite Hrun' in Hrun. injection Hrun as -> _.
    intros k. rewrite Hlook. by rewrite lookup_empty.
  - change (parse_request (payload_of resources) st)
      with (dict_comp resources ∅ st) in Hrun.
    by rewrite (dict_comp_malformed resources ∅ st Hwf) in Hrun.
Qed.

(** X6. The keys of the table [parse_request] returns are exactly the
    names of the records, and the table has at most as many entries as the
    payload has records. *)
Theorem parse_request_domain (resources : list (record F))
    (table : gmap string F) (st st' : state F) :
  parse_request (payload_of resources) st = (Ok table, st') →
  dom table = list_to_set (record_names resources)
  ∧ size table ≤ length resources.
Proof.
  intros Hrun.
  destruct (parse_request_Ok_well_formed _ _ _ _ Hrun) as [Hwf Hlook].
  assert (Hdom : dom table = list_to_set (record_names resources)).
  { apply set_eq. intros k.
    rewrite elem_of_dom, Hlook, last_price_is_Some, elem_of_list_to_set.
    split; [intros [[? [=]]|?]; done | auto]. }
  split; [done|].
  rewrite <- size_dom, Hdom.
  pose proof (size_list_to_set_le (record_names resources)).
  pose proof (proj1 (record_names_length resources)). lia.
Qed.

(** X7. When the names of the payload are pairwise distinct, every quote
    of the payload is found in the table under its name with its price,
    and the table has one entry per record. *)
Theorem parse_request_distinct_names (resources : list (record F))
    (table : gmap string F) (st st' : state F) :
  NoDup (record_names resources) →
  parse_request (payload_of resources) st = (Ok table, st') →
  (∀ name price, (name, price) ∈ omap record_entry resources →
                 table !! name = Some price)
  ∧ size table = length resources.
Proof.
  intros Hnodup Hrun.
  destruct (parse_request_Ok_well_formed _ _ _ _ Hrun) as [Hwf Hlook].
  split.
  - intros name price Hin. rewrite Hlook. by apply last_price_distinct.
  - assert (Hdom : dom table = list_to_set (record_names resources)).
    { apply set_eq. intros k.
      rewrite elem_of_dom, Hlook, last_price_is_Some, elem_of_list_to_set.
      split; [intros [[? [=]]|?]; done | auto]. }
    rewrite <- size_dom, Hdom, size_list_to_set by done.
    exact (proj2 (record_names_length resources) Hwf).
Qed.

(** X8. [parse_request] has no effect: it returns the state it was given,
    logs nothing and issues no I/O, and its result does not depend on the
    state. *)
Theorem parse_request_effect_free (json : pyobj F) (st st0 : state F) :
  (parse_request json st).2 = st
  ∧ (parse_request json st0).1 = (parse_request json st).1.
Proof.
  destruct (parse_request_pure json) as [r Hr]. by rewrite !Hr.
Qed.

End ParseRequestMore.

Lemma parse_request_FIELDS_table :
  parse_request (payload_of FIELDS_records) (imported 0) =
    (Ok FIELDS_table, imported 0).
Proof. vm_compute. reflexivity. Defined.

Lemma FIELDS_names_distinct : NoDup (record_names FIELDS_records).
Proof. apply (bool_decide_unpack _). vm_compute. exact I. Defined.

Lemma parse_request_domain_FIELDS :
  dom FIELDS_table = list_to_set (record_names FIELDS_records)
  ∧ size FIELDS_table ≤ length FIELDS_records.
Proof.
  exact (parse_request_domain FIELDS_records FIELDS_table (imported 0) (imported 0)
           parse_request_FIELDS_table).
Defined.

Lemma parse_request_distinct_names_FIELDS :
  (∀ name price, (name, price) ∈ omap record_entry FIELDS_records →
                 FIELDS_table !! name = Some price)
  ∧ size FIELDS_table = length FIELDS_records.
Proof.
  exact (parse_request_distinct_names FIELDS_records FIELDS_table (imported 0)
           (imported 0) FIELDS_names_distinct parse_request_FIELDS_table).
Defined.

(** ** The transform mapped over the split pairs *)

Section Starmap.
Context {F : Type} `{PyFloat F}.

Lemma parse_result_logger_only (conf : objconf) (word : pyval) (_pass : bool)
    (rates : gmap string F) (st1 st2 : state F) :
  logger st1 = logger st2 →
  (parse_result conf word _pass rates st1).1 = (parse_result conf word _pass rates st2).1
  ∧ logger (parse_result conf word _pass rates st1).2 = logger st1.
Proof.
  intros Hlogger. unfold parse_result. destruct _pass; [done|].
  destruct (calc_rate_logger_only (py_or word (conf_default conf))
              (conf_quote conf) rates st1 st2 Hlogger) as (Hout & Hl1 & _).
  unfold bind, ret.
  destruct (calc_rate _ _ rates st1) as [[r1|e1] st1'],
           (calc_rate _ _ rates st2) as [[r2|e2] st2']; cbn in *;
    (split; [congruence | done]).
Qed.

(** X9. The output stream has one element per split pair, in the order
    of the input: the element at each index is what [parse_result] gives
    for the triple at that index, whatever the other items are. *)
Theorem starmap_pointwise (rates : gmap string F)
    (parsed : list (objconf * pyval * bool)) (st st' : state F)
    (out : list (output F)) :
  starmap rates parsed st = (Ok out, st') →
  length out = length parsed
  ∧ ∀ i conf word _pass,
      parsed !! i = Some (conf, word, _pass) →
      ∃ o, out !! i = Some o
           ∧ (parse_result conf word _pass rates st).1 = Ok o.
Proof.
  revert st st' out.
  induction parsed as [|[[conf0 word0] pass0] rest IH]; intros st st' out Hrun.
  - injection Hrun as <- _. split; [done|]. intros i ? ? ? Hi. by destruct i.
  - cbn [starmap] in Hrun. unfold bind in Hrun.
    destruct (parse_result conf0 word0 pass0 rates st) as [[o0|e0] st0] eqn:Hhead;
      [|discriminate].
    destruct (starmap rates rest st0) as [[os|e] st1] eqn:Htail; [|discriminate].
    injection Hrun as <- <-.
    destruct (IH _ _ _ Htail) as [Hlen Hat].
    split; [cbn; by rewrite Hlen|].
    intros [|i] conf word _pass Hi.
    + injection Hi as -> -> ->. exists o0. by rewrite Hhead.
    + destruct (Hat i conf word _pass Hi) as (o & Ho & Hres).
      exists o. split; [done|]. rewrite <- Hres.
      apply parse_result_logger_only.
      pose proof (parse_result_logger_only conf0 word0 pass0 rates st st eq_refl)
        as [_ Hl]. by rewrite Hhead in Hl.
Qed.

(** X10. A stream of pass-through pairs never fails, never consults the
    rate table and leaves the state alone: each item comes out as its word,
    or as the default when the word is falsy. *)
Theorem starmap_all_pass (rates : gmap string F)
    (parsed : list (objconf * pyval * bool)) (st : state F) :
  forallb passed parsed = true →
  starmap rates parsed st =
    (Ok (map (λ t, OutVal (py_or t.1.2 (conf_default t.1.1))) parsed), st).
Proof.
  induction parsed as [|[[conf word] _pass] rest IH]; intros Hall; [done|].
  cbn [forallb] in Hall. apply andb_prop in Hall as [Hpass Hrest].
  unfold passed in Hpass. cbn in Hpass. subst _pass.
  cbn [starmap map]. unfold bind, parse_result, ret.
  by rewrite (IH Hrest).
Qed.

(** X11. Mapping the transform issues no I/O and leaves the cache, the
    clock and [logger] alone; all it adds to the log are warnings. *)
Theorem starmap_state (rates : gmap string F)
    (parsed : list (objconf * pyval * bool)) (st : state F) :
  io (starmap rates parsed st).2 = io st
  ∧ cache (starmap rates parsed st).2 = cache st
  ∧ now (starmap rates parsed st).2 = now st
  ∧ logger (starmap rates parsed st).2 = logger st
  ∧ ∃ warnings, log (starmap rates parsed st).2 = log st ++ warnings
                ∧ Forall (λ e, e.1 = WARNING) warnings.
Proof.
  revert st. induction parsed as [|[[conf word] _pass] rest IH]; intros st.
  - cbn. repeat (split; [done|]). exists []. by rewrite app_nil_r.
  - cbn [starmap]. unfold bind, ret.
    assert (Hhead : ∃ st0, (parse_result conf word _pass rates st).2 = st0
              ∧ io st0 = io st ∧ cache st0 = cache st ∧ now st0 = now st
              ∧ logger st0 = logger st
              ∧ ∃ warnings, log st0 = log st ++ warnings
                            ∧ Forall (λ e, e.1 = WARNING) warnings).
    { eexists. split; [reflexivity|]. unfold parse_result. destruct _pass.
      - cbn. repeat (split; [done|]). exists []. by rewrite app_nil_r.
      - unfold bind, ret.
        pose proof (calc_rate_state (py_or word (conf_default conf))
                      (conf_quote conf) rates st) as Hst.
        destruct (calc_rate _ _ rates st) as [[r|e] st0]; cbn in *; subst st0;
          (destruct (calc_rate_warns _ _ rates st); cbn;
           repeat (split; [done|]);
           [eexists [_]; split; [done | by constructor]
           | exists []; by rewrite app_nil_r]). }
    destruct Hhead as (st0 & Hst0 & Hio & Hcache & Hnow & Hlogger & ws & Hlog & Hws).
    destruct (parse_result conf word _pass rates st) as [[o|e] st0'];
      cbn in Hst0; subst st0'.
    + destruct (IH st0) as (Hio' & Hcache' & Hnow' & Hlogger' & ws' & Hlog' & Hws').
      destruct (starmap rates rest st0) as [[os|e] st1]; cbn in *;
        (split; [congruence|]; split; [congruence|]; split; [congruence|];
         split; [congruence|]; exists (ws ++ ws');
         split; [by rewrite Hlog', Hlog, app_assoc | by apply Forall_app]).
    + cbn. repeat (split; [done|]). by exists ws.
Qed.

End Starmap.

Lemma starmap_pointwise_example :
  length [OutRate (1 / 0.8234)%float; OutVal (VStr "EUR")] = 2
  ∧ ∀ i conf word _pass,
      [(example_conf, VStr "EUR", false); (example_conf, VNone, true)] !! i
        = Some (conf, word, _pass) →
      ∃ o, [OutRate (1 / 0.8234)%float; OutVal (VStr "EUR")] !! i = Some o
           ∧ (parse_result conf word _pass example_table (imported 0)).1 = Ok o.
Proof.
  exact (starmap_pointwise example_table
           [(example_conf, VStr "EUR", false); (example_conf, VNone, true)]
           (imported 0) (imported 0)
           [OutRate (1 / 0.8234)%float; OutVal (VStr "EUR")] eq_refl).
Defined.

Lemma starmap_all_pass_example :
  starmap (∅ : gmap string float)
    [(example_conf, VStr "GBP", true); (example_conf, VInt 0, true)] (imported 0) =
    (Ok [OutVal (VStr "GBP"); OutVal (VStr "EUR")], imported 0).
Proof.
  exact (starmap_all_pass (∅ : gmap string float)
           [(example_conf, VStr "GBP", true); (example_conf, VInt 0, true)]
           (imported 0) eq_refl).
Defined.

(** ** What I/O the stages issue *)

Section NeverIssues.
Context {F : Type} `{PyFloat F} (w : world F).
Context {Item Kwargs Split : Type}.
Context (dispatch : Split → list (objconf * pyval * bool)).
Context (asyncDispatch : Split → deferred (list (objconf * pyval * bool))).

Lemma never_issues_same_io {A : Type} (e : io_event) (m : M F A) :
  (∀ st, io (m st).2 = io st) → never_issues e m.
Proof.
  intros Hsame st. exists []. rewrite Hsame, app_nil_r. split; [done|].
  apply not_elem_of_nil.
Qed.

Lemma never_issues_bind {A B : Type} (e : io_event) (m : M F A) (k : A → M F B) :
  never_issues e m → (∀ a, never_issues e (k a)) → never_issues e (bind m k).
Proof.
  intros Hm Hk st. unfold bind.
  destruct (Hm st) as (rest & Hio & Hnot).
  destruct (m st) as [[a|x] st0]; cbn in *; [|by exists rest].
  destruct (Hk a st0) as (rest' & Hio' & Hnot').
  exists (rest ++ rest'). rewrite Hio', Hio, app_assoc. split; [done|].
  rewrite elem_of_app. tauto.
Qed.

Lemma never_issues_memoize (e : io_event) (key : string) (ttl : Z)
    (fetchFn : M F (pyobj F)) :
  never_issues e fetchFn → never_issues e (memoize key ttl fetchFn).
Proof.
  intros Hfetch st. unfold memoize.
  destruct (Hfetch st) as (rest & Hio & Hnot).
  assert (Hsame : ∃ rest0, io st = io st ++ rest0 ∧ e ∉ rest0).
  { exists []. rewrite app_nil_r. split; [done | apply not_elem_of_nil]. }
  destruct (cache st !! key) as [[v fetchedAt]|].
  - destruct (now st - fetchedAt <? ttl)%Z; [done|].
    destruct (fetchFn st) as [[v'|x] st0]; cbn in *; by exists rest.
  - destruct (fetchFn st) as [[v'|x] st0]; cbn in *; by exists rest.
Qed.

Lemma never_issues_logger_call (e : io_event) (lv : level) (msg : string) :
  never_issues e (logger_call (F:=F) lv msg).
Proof.
  apply never_issues_same_io. intros st. unfold logger_call.
  by destruct (logger st).
Qed.

Lemma never_issues_starmap (e : io_event) (rates : gmap string F)
    (parsed : list (objconf * pyval * bool)) :
  never_issues e (starmap rates parsed).
Proof.
  apply never_issues_same_io. intros st. apply (starmap_state rates parsed st).
Qed.

Lemma never_issues_parse_request (e : io_event) (json : pyobj F) :
  never_issues e (parse_request json).
Proof.
  apply never_issues_same_io. intros st.
  by rewrite (proj1 (parse_request_effect_free json st st)).
Qed.

Lemma never_issues_transform (e : io_event) (name : string) (rdata : pyobj F) :
  never_issues e
    (bind (parse_request rdata) (λ rates,
     bind (unbound_name name) (λ split, starmap rates (dispatch split)))).
Proof.
  apply never_issues_bind; [apply never_issues_parse_request|].
  intros rates. apply never_issues_bind; [by apply never_issues_same_io|].
  intros split. apply never_issues_starmap.
Qed.

Lemma never_issues_one (e e' : io_event) {A : Type} (r : result A) :
  e ≠ e' → never_issues e (λ st : state F, (r, add_io e' st)).
Proof.
  intros Hne st. exists [e']. split; [done|].
  by apply not_elem_of_cons; split; [|apply not_elem_of_nil].
Qed.

(** X12. With [offline] set (any truthy value, the documented ['0']
    included, since a non-empty string is truthy), neither stage issues
    the GET against the rate service: whatever is cached and whatever the
    helpers return, the I/O trace grows by no [HttpGet]. *)
Theorem offline_never_gets (item : Item)
    (conf : gmap string (gmap string pyval)) (kwargs : Kwargs) :
  truthy (conf_get_offline conf) = true →
  never_issues HttpGet (pipe_exchangerate w dispatch item conf kwargs)
  ∧ never_issues HttpGet
      (asyncPipeExchangerate w asyncDispatch item conf kwargs).
Proof.
  intros Hoffline. unfold pipe_exchangerate, asyncPipeExchangerate.
  rewrite Hoffline. split.
  - apply never_issues_bind; [|intros rdata; apply never_issues_transform].
    apply never_issues_memoize. unfold get_offline_rate_data_body.
    apply never_issues_bind; [destruct (kw_err _); apply never_issues_logger_call|].
    intros _. apply never_issues_bind.
    + by apply never_issues_one.
    + intros p. by apply never_issues_same_io.
  - apply never_issues_bind; [by apply never_issues_same_io|]. intros _.
    apply never_issues_bind.
    + apply never_issues_bind.
      * apply never_issues_memoize. unfold asyncGetOfflineRateData_body.
        apply never_issues_bind; [apply never_issues_logger_call|]. intros _.
        apply never_issues_bind.
        -- destruct (kw_err _); [apply never_issues_logger_call|].
           by apply never_issues_same_io.
        -- intros _. by apply never_issues_one.
      * intros [p|[p|x]]; by apply never_issues_same_io.
    + intros rdata.
      apply never_issues_bind; [apply never_issues_parse_request|]. intros rates.
      apply never_issues_bind; [by apply never_issues_same_io|].
      intros split. apply never_issues_bind.
      { destruct (asyncDispatch split); by apply never_issues_same_io. }
      intros parsed. apply never_issues_starmap.
Qed.

(** X13. Without [offline], the blocking stage never reads the bundled
    snapshot, whatever the GET does and whatever is cached: the I/O trace
    grows by no [ReadSnapshot]. *)
Theorem online_blocking_never_reads_snapshot (item : Item)
    (conf : gmap string (gmap string pyval)) (kwargs : Kwargs) :
  truthy (conf_get_offline conf) = false →
  never_issues ReadSnapshot
    (pipe_exchangerate w dispatch item conf kwargs).
Proof.
  intros Honline. unfold pipe_exchangerate. rewrite Honline.
  apply never_issues_bind; [|intros rdata; apply never_issues_transform].
  apply never_issues_memoize. unfold get_rate_data_body.
  apply never_issues_bind.
  - unfold requests_get. by apply never_issues_one.
  - intros [|p]; by apply never_issues_same_io.
Qed.

(** X14. The suspendable fetch does fall back: with [logger] bound and
    nothing cached for the errback, a GET that fails is answered by a
    Deferred of the snapshot, after one GET and one read of the snapshot
    and with the error diagnostic logged. *)
Theorem asyncGetRateData_falls_back (e : exn) (st : state F) :
  remote w = Raise e →
  logger st = true →
  cache st !! "asyncGetOfflineRateData(failure)" = None →
  ∃ st', asyncGetRateData_body w st
           = (Ok (ObjDeferred (as_deferred (snapshot w))), st')
         ∧ io st' = io st ++ [HttpGet; ReadSnapshot]
         ∧ log st' = log st ++
             [(DEBUG, "asyncGetRateData"); (DEBUG, "loading offline data");
              (ERROR, "Error loading exchange rate data from " +:+ EXCHANGE_API)].
Proof.
  intros Hremote Hlogger Hmiss.
  unfold asyncGetRateData_body, bind, logger_call, ret.
  rewrite Hlogger, Hremote. cbn beta iota.
  unfold asyncGetOfflineRateData_errback, memoize. cbn [cache add_io add_log].
  rewrite Hmiss.
  unfold asyncGetOfflineRateData_body, bind, logger_call, ret, kw_err.
  cbn. repeat (rewrite Hlogger; cbn).
  destruct (snapshot w) as [p|x]; cbn;
    (eexists; split; [reflexivity|]; cbn; by rewrite <- !app_assoc).
Qed.

(** X15. The two offline fetchers, side by side. With [logger] unbound
    both raise AttributeError before any I/O. With it bound each reads the
    snapshot exactly once; a snapshot that cannot be read makes the
    blocking one raise, while the suspendable one returns a failed
    Deferred. *)
Theorem offline_bodies (err : option bool) (st : state F) :
  if logger st
  then io (get_offline_rate_data_body w err st).2 = io st ++ [ReadSnapshot]
       ∧ io (asyncGetOfflineRateData_body w err st).2 = io st ++ [ReadSnapshot]
       ∧ (get_offline_rate_data_body w err st).1 = fetched (snapshot w)
       ∧ (asyncGetOfflineRateData_body w err st).1
         = Ok (ObjDeferred (as_deferred (snapshot w)))
  else get_offline_rate_data_body w err st = (Raise AttributeError, st)
       ∧ asyncGetOfflineRateData_body w err st = (Raise AttributeError, st).
Proof.
  unfold get_offline_rate_data_body, asyncGetOfflineRateData_body, bind,
    logger_call, urlopen_local, ret.
  destruct (logger st) eqn:Hlogger; cbn.
  - destruct (kw_err err); cbn; rewrite ?Hlogger; cbn;
      destruct (snapshot w); cbn; done.
  - destruct (kw_err err); cbn; rewrite ?Hlogger; split; reflexivity.
Qed.

End NeverIssues.

Lemma offline_never_gets_documented_value :
  never_issues HttpGet
    (pipe_exchangerate live_world one_item_dispatch tt
       {["offline" := {["type" := VStr "bool"; "value" := VStr "0"]}]} tt)
  ∧ never_issues HttpGet
      (asyncPipeExchangerate live_world
         one_item_asyncDispatch tt
         {["offline" := {["type" := VStr "bool"; "value" := VStr "0"]}]} tt).
Proof.
  apply offline_never_gets. vm_compute. reflexivity.
Defined.

Lemma online_blocking_never_reads_snapshot_example :
  never_issues ReadSnapshot
    (pipe_exchangerate down_world one_item_dispatch tt ∅ tt).
Proof.
  apply online_blocking_never_reads_snapshot. vm_compute. reflexivity.
Defined.

Lemma asyncGetRateData_falls_back_example :
  ∃ st', asyncGetRateData_body down_world (set_logger true (imported 0))
           = (Ok (ObjDeferred (Succeeded FIELDS_payload)), st')
         ∧ io st' = [HttpGet; ReadSnapshot]
         ∧ log st' =
             [(DEBUG, "asyncGetRateData"); (DEBUG, "loading offline data");
              (ERROR, "Error loading exchange rate data from " +:+ EXCHANGE_API)].
Proof.
  exact (asyncGetRateData_falls_back down_world ConnectionError
           (set_logger true (imported 0)) eq_refl eq_refl eq_refl).
Defined.

(** ** The site-feed stage: fetching *)

Section SiteFeed.
Context {Stream Parsed : Type}.
Context (get_abspath : string → string).
Context (get_rss : string → result (list (gmap string string))).
Context (asyncGetRSS : string → deferred (list (gmap string string))).
Context (async_url_read : string → deferred string).
Context (parse_rss : string → result Parsed).
Context (gen_entries : Parsed → Stream).
Context (pep479 : bool).

(** X16. Without the skip flag, [parser] fetches the first feed the site
    advertises and only that one: it resolves the URL, discovers the
    feeds, resolves and parses the link of the first, and returns its
    entries with the flag, in that order; the other feeds and [kwargs]
    play no part. *)
Theorem parser_fetches_first_feed (ignored : pyval) (conf : Fetchsitefeed.objconf)
    (kwargs : gmap string Stream) (calls : list Fetchsitefeed.call)
    (first : gmap string string) (others : list (gmap string string))
    (link : string) (parsed : Parsed) :
  get_rss (get_abspath (Fetchsitefeed.url conf)) = Ok (first :: others) →
  first !! "link" = Some link →
  parse_rss (get_abspath link) = Ok parsed →
  Fetchsitefeed.parser get_abspath get_rss parse_rss gen_entries
    ignored conf false kwargs calls =
    (Ok (gen_entries parsed, false),
     calls ++ [Fetchsitefeed.GetAbspath (Fetchsitefeed.url conf);
               Fetchsitefeed.GetRss (get_abspath (Fetchsitefeed.url conf));
               Fetchsitefeed.GetAbspath link;
               Fetchsitefeed.ParseRss (get_abspath link);
               Fetchsitefeed.GenEntries]).
Proof.
  intros Hrss Hlink Hparse.
  unfold Fetchsitefeed.parser, Fetchsitefeed.bind, Fetchsitefeed.invoke,
    Fetchsitefeed.next, Fetchsitefeed.getitem, Fetchsitefeed.ret.
  rewrite Hrss, Hlink, Hparse. by rewrite <- !app_assoc.
Qed.

(** X17. A site that advertises no feed stops both parsers right after
    discovery, and differently: [parser] raises the StopIteration of
    [next(rss)], while in the coroutine it ends the generator, so that the
    Deferred of [async_parser] fires with [None], or fails with
    RuntimeError under PEP 479. A first feed that carries no link makes
    both fail with KeyError. In every case nothing is read or parsed. *)
Theorem parser_no_feed (ignored : pyval) (conf : Fetchsitefeed.objconf)
    (kwargs : gmap string Stream) (calls : list Fetchsitefeed.call)
    (feeds : list (gmap string string)) :
  get_rss (get_abspath (Fetchsitefeed.url conf)) = Ok feeds →
  asyncGetRSS (get_abspath (Fetchsitefeed.url conf)) = Succeeded feeds →
  head feeds ≫= (λ first, first !! "link") = None →
  Fetchsitefeed.parser get_abspath get_rss parse_rss gen_entries
    ignored conf false kwargs calls =
    (Raise (if feeds is [] then StopIteration else KeyError),
     calls ++ [Fetchsitefeed.GetAbspath (Fetchsitefeed.url conf);
               Fetchsitefeed.GetRss (get_abspath (Fetchsitefeed.url conf))])
  ∧ Fetchsitefeed.async_parser get_abspath asyncGetRSS async_url_read parse_rss
      gen_entries pep479 ignored conf false kwargs calls =
    (if feeds is []
     then if pep479 then Raise RuntimeError else Ok None
     else Raise KeyError,
     calls ++ [Fetchsitefeed.GetAbspath (Fetchsitefeed.url conf);
               Fetchsitefeed.AsyncGetRss (get_abspath (Fetchsitefeed.url conf))]).
Proof.
  intros Hrss Hasync Hnone.
  unfold Fetchsitefeed.parser, Fetchsitefeed.async_parser, Fetchsitefeed.coroutine,
    Fetchsitefeed.async_parser_gen, Fetchsitefeed.bind,
    Fetchsitefeed.invoke, Fetchsitefeed.next, Fetchsitefeed.getitem,
    Fetchsitefeed.ret.
  rewrite Hrss, Hasync. cbn [Fetchsitefeed.from_deferred].
  destruct feeds as [|first others]; cbn in *.
  - rewrite <- !app_assoc. by destruct pep479.
  - rewrite Hnone. by rewrite <- !app_assoc.
Qed.

Lemma bind_ret_flag {A : Type} (m : Fetchsitefeed.T A) (skip flag : bool)
    (calls calls' : list Fetchsitefeed.call) (stream : A) :
  Fetchsitefeed.bind m (λ s, Fetchsitefeed.ret (s, skip)) calls
    = (Ok (stream, flag), calls') →
  flag = skip.
Proof.
  unfold Fetchsitefeed.bind, Fetchsitefeed.ret.
  destruct (m calls) as [[s|x] tr]; congruence.
Qed.

(** X18. Whatever a parser returns, the flag it returns is the skip flag
    it was given. *)
Theorem parser_returns_skip_flag (ignored : pyval) (conf : Fetchsitefeed.objconf)
    (skip : bool) (kwargs : gmap string Stream) (calls calls' : list Fetchsitefeed.call)
    (stream : Stream) (flag : bool) :
  Fetchsitefeed.parser get_abspath get_rss parse_rss gen_entries
    ignored conf skip kwargs calls = (Ok (stream, flag), calls')
  ∨ Fetchsitefeed.async_parser get_abspath asyncGetRSS async_url_read parse_rss
      gen_entries pep479 ignored conf skip kwargs calls
    = (Ok (Some (stream, flag)), calls') →
  flag = skip.
Proof.
  intros [Hrun|Hrun].
  - exact (bind_ret_flag _ _ _ _ _ _ Hrun).
  - unfold Fetchsitefeed.async_parser, Fetchsitefeed.coroutine in Hrun.
    destruct (Fetchsitefeed.async_parser_gen get_abspath asyncGetRSS async_url_read
                parse_rss gen_entries conf skip kwargs calls)
      as [[[s b]|x] tr] eqn:Hgen.
    + injection Hrun as -> -> ->. exact (bind_ret_flag _ _ _ _ _ _ Hgen).
    + destruct x; try discriminate. by destruct pep479.
Qed.

(** Under the same conditions the body of the coroutine does what the
    blocking parser does. *)
Lemma async_parser_gen_agrees (conf : Fetchsitefeed.objconf)
    (skip : bool) (kwargs : gmap string Stream) (calls : list Fetchsitefeed.call)
    (ignored : pyval) :
  (∀ url, Fetchsitefeed.from_deferred (asyncGetRSS url) = get_rss url) →
  (∀ link, match async_url_read link with
           | Succeeded content => parse_rss content = parse_rss link
           | Failed x => parse_rss link = Raise x
           end) →
  (Fetchsitefeed.async_parser_gen get_abspath asyncGetRSS async_url_read parse_rss
     gen_entries conf skip kwargs calls).1 =
  (Fetchsitefeed.parser get_abspath get_rss parse_rss gen_entries
     ignored conf skip kwargs calls).1.
Proof.
  intros Hrss Hread.
  unfold Fetchsitefeed.parser, Fetchsitefeed.async_parser_gen, Fetchsitefeed.bind,
    Fetchsitefeed.invoke, Fetchsitefeed.next, Fetchsitefeed.getitem,
    Fetchsitefeed.ret.
  destruct skip; [by destruct (kwargs !! "stream")|].
  rewrite Hrss.
  destruct (get_rss (get_abspath (Fetchsitefeed.url conf))) as [[|first others]|x];
    [done| |done].
  destruct (first !! "link") as [link|]; [|done].
  specialize (Hread (get_abspath link)).
  destruct (async_url_read (get_abspath link)) as [content|x];
    cbn [Fetchsitefeed.from_deferred].
  - rewrite Hread. by destruct (parse_rss (get_abspath link)).
  - by rewrite Hread.
Qed.

(** X19. When the suspendable collaborators deliver what the blocking
    ones return, and parsing the content read from a link is parsing the
    link, then, unless [parser] raises StopIteration, the Deferred of
    [async_parser] carries what [parser] returns, or fails with the
    exception [parser] raises. *)
Theorem parsers_agree (ignored : pyval) (conf : Fetchsitefeed.objconf)
    (skip : bool) (kwargs : gmap string Stream) (calls : list Fetchsitefeed.call) :
  (∀ url, Fetchsitefeed.from_deferred (asyncGetRSS url) = get_rss url) →
  (∀ link, match async_url_read link with
           | Succeeded content => parse_rss content = parse_rss link
           | Failed x => parse_rss link = Raise x
           end) →
  (Fetchsitefeed.parser get_abspath get_rss parse_rss gen_entries
     ignored conf skip kwargs calls).1 ≠ Raise StopIteration →
  (Fetchsitefeed.async_parser get_abspath asyncGetRSS async_url_read parse_rss
     gen_entries pep479 ignored conf skip kwargs calls).1 =
  delivered (Fetchsitefeed.parser get_abspath get_rss parse_rss gen_entries
               ignored conf skip kwargs calls).1.
Proof.
  intros Hrss Hread Hstop.
  rewrite <- (async_parser_gen_agrees conf skip kwargs calls ignored Hrss Hread)
    in Hstop |- *.
  unfold Fetchsitefeed.async_parser, Fetchsitefeed.coroutine.
  destruct (Fetchsitefeed.async_parser_gen get_abspath asyncGetRSS async_url_read
              parse_rss gen_entries conf skip kwargs calls) as [[a|x] tr];
    cbn in *; [done|].
  destruct x; try done.
Qed.

End SiteFeed.

Lemma parser_fetches_first_feed_example :
  Fetchsitefeed.parser site_abspath site_get_rss site_parse_rss site_gen_entries
    VNone site_conf false ∅ [] =
    (Ok (["feed"], false),
     [Fetchsitefeed.GetAbspath "bbc.html"; Fetchsitefeed.GetRss "/srv/bbc.html";
      Fetchsitefeed.GetAbspath "feed.xml"; Fetchsitefeed.ParseRss "/srv/feed.xml";
      Fetchsitefeed.GenEntries]).
Proof.
  exact (parser_fetches_first_feed site_abspath site_get_rss site_parse_rss
           site_gen_entries VNone site_conf ∅ [] {["link" := "feed.xml"]}
           [{["link" := "other.xml"]}] "feed.xml" "feed" eq_refl eq_refl eq_refl).
Defined.

Lemma parser_no_feed_example :
  Fetchsitefeed.parser site_abspath bare_get_rss site_parse_rss site_gen_entries
    VNone site_conf false ∅ [] =
    (Raise StopIteration,
     [Fetchsitefeed.GetAbspath "bbc.html"; Fetchsitefeed.GetRss "/srv/bbc.html"])
  ∧ Fetchsitefeed.async_parser site_abspath bare_asyncGetRSS site_url_read
      site_parse_rss site_gen_entries false VNone site_conf false ∅ [] =
    (Ok None,
     [Fetchsitefeed.GetAbspath "bbc.html"; Fetchsitefeed.AsyncGetRss "/srv/bbc.html"]).
Proof.
  exact (parser_no_feed site_abspath bare_get_rss bare_asyncGetRSS site_url_read
           site_parse_rss site_gen_entries false VNone site_conf ∅ [] [] eq_refl
           eq_refl eq_refl).
Defined.

Lemma parser_returns_skip_flag_example :
  Fetchsitefeed.async_parser site_abspath site_asyncGetRSS site_url_read
    site_parse_rss site_gen_entries false VNone site_conf false ∅ [] =
    (Ok (Some (["feed"], false)),
     [Fetchsitefeed.GetAbspath "bbc.html"; Fetchsitefeed.AsyncGetRss "/srv/bbc.html";
      Fetchsitefeed.GetAbspath "feed.xml"; Fetchsitefeed.AsyncUrlRead "/srv/feed.xml";
      Fetchsitefeed.ParseRss "<rss>/srv/feed.xml"; Fetchsitefeed.GenEntries])
  ∧ false = false.
Proof.
  split; [reflexivity|].
  exact (parser_returns_skip_flag site_abspath site_get_rss site_asyncGetRSS
           site_url_read site_parse_rss site_gen_entries false VNone site_conf
           false ∅ [] _ ["feed"] false (or_intror eq_refl)).
Defined.

Lemma site_parser_no_stop :
  (Fetchsitefeed.parser site_abspath site_get_rss site_parse_rss site_gen_entries
     VNone site_conf false ∅ []).1 ≠ Raise StopIteration.
Proof. discriminate. Defined.

Lemma parsers_agree_example :
  (Fetchsitefeed.async_parser site_abspath site_asyncGetRSS site_url_read
     site_parse_rss site_gen_entries false VNone site_conf false ∅ []).1 =
  delivered (Fetchsitefeed.parser site_abspath site_get_rss site_parse_rss
               site_gen_entries VNone site_conf false ∅ []).1.
Proof.
  exact (parsers_agree site_abspath site_get_rss site_asyncGetRSS site_url_read
           site_parse_rss site_gen_entries false VNone site_conf false ∅ []
           (λ _, eq_refl) (λ _, eq_refl) site_parser_no_stop).
Defined.

(** ** The currency-format stage *)

Section CurrencyFormat.
Context {Num : Type} (format_currency : Num → pyval → result string).

(** X20. When the transform of the currency-format stage, mapped over
    the split pairs, delivers its stream, the stream has one element per
    pair; the pairs passed through come out as their numbers, at their
    positions; and [format_currency] has been called once for each of the
    other pairs, in order, with the pair's number and the configured
    currency. *)
Theorem currencyformat_stream (parsed : list (Currencyformat.objconf * Num * bool)) :
  ∀ (calls calls' : list (Num * pyval)) (out : list (Currencyformat.output Num)),
    Currencyformat.starmap format_currency parsed calls = (Ok out, calls') →
    length out = length parsed
    ∧ calls' = calls ++ to_format parsed
    ∧ ∀ i conf num, parsed !! i = Some (conf, num, true) →
                    out !! i = Some (Currencyformat.OutNum num).
Proof.
  induction parsed as [|[[conf0 num0] pass0] rest IH]; intros calls calls' out Hrun.
  - injection Hrun as <- <-. split; [done|]. split; [by rewrite app_nil_r|].
    intros i ? ? Hi. by destruct i.
  - cbn [Currencyformat.starmap] in Hrun.
    unfold Currencyformat.bind, Currencyformat.parse_result, Currencyformat.ret in Hrun.
    destruct pass0.
    + destruct (Currencyformat.starmap format_currency rest calls)
        as [[os|x] calls0] eqn:Htail; [|discriminate].
      injection Hrun as <- <-. destruct (IH _ _ _ Htail) as (Hlen & Hcalls & Hat).
      split; [cbn; by rewrite Hlen|]. split; [done|].
      intros [|i] conf num Hi; [by injection Hi as -> ->|].
      exact (Hat i conf num Hi).
    + destruct (format_currency num0 (Currencyformat.conf_currency conf0))
        as [s|x]; [|discriminate].
      destruct (Currencyformat.starmap format_currency rest
                  (calls ++ [(num0, Currencyformat.conf_currency conf0)]))
        as [[os|x] calls0] eqn:Htail; [|discriminate].
      injection Hrun as <- <-. destruct (IH _ _ _ Htail) as (Hlen & Hcalls & Hat).
      split; [cbn; by rewrite Hlen|].
      split; [by rewrite Hcalls, <- app_assoc|].
      intros [|i] conf num Hi; [discriminate|]. exact (Hat i conf num Hi).
Qed.

(** X21. The first pair [format_currency] rejects stops the stream of the
    mapped transform: the exception is raised, and the formatter is not
    called for any later pair. *)
Theorem currencyformat_stops (calls : list (Num * pyval))
    (before after : list (Currencyformat.objconf * Num * bool))
    (c : Currencyformat.objconf) (num : Num) (x : exn) :
  (∀ t, t ∈ before → t.2 = false →
        ∃ s, format_currency t.1.2 (Currencyformat.conf_currency t.1.1) = Ok s) →
  format_currency num (Currencyformat.conf_currency c) = Raise x →
  Currencyformat.starmap format_currency (before ++ (c, num, false) :: after) calls =
    (Raise x, calls ++ to_format before ++ [(num, Currencyformat.conf_currency c)]).
Proof.
  intros Hbefore Hfail. revert calls.
  induction before as [|[[c0 num0] pass0] before IH]; intros calls.
  - cbn. unfold Currencyformat.bind, Currencyformat.parse_result.
    by rewrite Hfail.
  - cbn [app Currencyformat.starmap].
    unfold Currencyformat.bind at 1. unfold Currencyformat.parse_result.
    assert (Hrest : ∀ t, t ∈ before → t.2 = false →
              ∃ s, format_currency t.1.2 (Currencyformat.conf_currency t.1.1) = Ok s).
    { intros t Ht. apply Hbefore. by apply elem_of_cons; right. }
    destruct pass0.
    + unfold Currencyformat.ret at 1. unfold Currencyformat.bind at 1.
      by rewrite (IH Hrest calls).
    + destruct (Hbefore (c0, num0, false)) as [s Hs];
        [by apply elem_of_cons; left | done |].
      cbn in Hs. rewrite Hs. unfold Currencyformat.bind at 1.
      rewrite (IH Hrest). unfold to_format. cbn [omap list_omap snd fst].
      by rewrite <- app_assoc.
Qed.

(** The stage itself never gets that far: the call of the unbound
    [get_split] raises before any pair is formatted. *)
Lemma pipe_currencyformat_unbound_split {Item Kwargs Split : Type}
    (dispatch : Split → list (Currencyformat.objconf * Num * bool))
    (item : Item) (conf : gmap string (gmap string pyval)) (kwargs : Kwargs)
    (calls : list (Num * pyval)) :
  Currencyformat.pipe_currencyformat format_currency dispatch item conf kwargs calls
    = (Raise NameError, calls).
Proof. reflexivity. Qed.

End CurrencyFormat.

Lemma currencyformat_stream_example :
  length [Currencyformat.OutStr "$10"; Currencyformat.OutNum 7%Z] = length two_nums
  ∧ [(10%Z, VStr "USD")] = [] ++ to_format two_nums
  ∧ ∀ i c num,
      two_nums !! i = Some (c, num, true) →
      [Currencyformat.OutStr "$10"; Currencyformat.OutNum 7%Z] !! i
        = Some (Currencyformat.OutNum num).
Proof.
  exact (currencyformat_stream usd_only two_nums [] [(10%Z, VStr "USD")]
           [Currencyformat.OutStr "$10"; Currencyformat.OutNum 7%Z] eq_refl).
Defined.

Lemma three_nums_before_formats (t : Currencyformat.objconf * Z * bool) :
  t ∈ [(usd_conf, 7%Z, true)] → t.2 = false →
  ∃ s, usd_only t.1.2 (Currencyformat.conf_currency t.1.1) = Ok s.
Proof.
  intros Ht Hnot. apply list_elem_of_singleton in Ht. subst t. discriminate.
Defined.

Lemma currencyformat_stops_example :
  Currencyformat.starmap usd_only three_nums [] =
    (Raise ValueError, [(10%Z, VStr "XXX")]).
Proof.
  exact (currencyformat_stops usd_only [] [(usd_conf, 7%Z, true)]
           [(usd_conf, 3%Z, false)] xxx_conf 10%Z ValueError
           three_nums_before_formats eq_refl).
Defined.

(** ** Instances of the general facts about the fetchers and the logger *)

Lemma get_rate_data_propagates_down :
  get_rate_data down_world (imported 0) =
    (Raise ConnectionError, add_io HttpGet (imported 0)).
Proof.
  exact (get_rate_data_propagates down_world (imported 0) ConnectionError
           eq_refl eq_refl).
Defined.

Lemma offline_strategies_agree_example :
  (pipe_exchangerate live_world one_item_dispatch tt
     {["offline" := {["value" := VStr "1"]}]} tt (set_logger true (imported 0))).1 =
  (asyncPipeExchangerate live_world one_item_asyncDispatch tt
     {["offline" := {["value" := VStr "1"]}]} tt (set_logger true (imported 0))).1.
Proof.
  apply (offline_strategies_agree live_world one_item_dispatch one_item_asyncDispatch);
    vm_compute; reflexivity.
Defined.

Lemma calc_rate_KeyError_missing_pivot :
  (calc_rate (VStr "EUR") (VStr "GBP") (<["USD/EUR" := 0.8234%float]> ∅)
     (imported 0)).1 = Raise KeyError.
Proof.
  apply calc_rate_KeyError_iff. split; [split; reflexivity | right; reflexivity].
Defined.

Lemma calc_rate_to_USD_missing_key_logged_example :
  calc_rate (VStr "EUR") (VStr "USD") (∅ : gmap string float)
    (set_logger true (imported 0)) =
    (Ok 1%float,
     add_log (WARNING, "rate USD/EUR not found in rates") (set_logger true (imported 0))).
Proof.
  etrans.
  - exact (calc_rate_to_USD_missing_key_logged (F:=float) (VStr "EUR") ∅
             (set_logger true (imported 0)) eq_refl eq_refl eq_refl).
  - vm_compute. reflexivity.
Defined.
